(** * gh-standup: activity collection and standup report generation

    A shallow embedding of the three Go packages of the repository:

    - [llm]    (internal/llm): prompt assembly, temperature resolution,
                the call to the completion endpoint and the extraction of
                the report from its response;
    - [github] (internal/github): the four search collectors with their
                pagination loops, and [CollectActivity];
    - [main]   (cmd/standup/main.go): [countActivities].

    Go strings are byte strings: they are [string] here, one [ascii] per
    byte.  Go's [int] is [Z]; the counters of this program stay far from
    the 64-bit bounds (page numbers up to 11, list lengths).  [float64] is
    Rocq's primitive [float]; the program only stores and copies such
    values.  Calls to [log] only print progress and are left out. *)

From Stdlib Require Import String Ascii List ZArith Bool Arith Lia.
From Stdlib Require Import DecimalString PrimFloat.
From Equations Require Import Equations.
Import ListNotations.

Local Open Scope list_scope.
Local Open Scope string_scope.

(** ** The parts of Go's standard library that the program calls *)

Module strings.

(** The line feed, Go's ["\n"]. *)
Definition nl : string := String (ascii_of_nat 10) EmptyString.

(** [len(s)]: the number of bytes. *)
Definition len (s : string) : Z := Z.of_nat (String.length s).

(** [strconv.Itoa], the rendering of the verb [%d]. *)
Definition itoa (n : Z) : string := NilZero.string_of_int (Z.to_int n).

(** Go's table [asciiSpace]: tab, line feed, vertical tab, form feed,
    carriage return and space. *)
Definition asciiSpace (c : ascii) : bool :=
  let n := nat_of_ascii c in
  ((9 <=? n)%nat && (n <=? 13)%nat) || (n =? 32)%nat.

(** [strings.HasPrefix]. *)
Fixpoint HasPrefix (s p : string) {struct p} : bool :=
  match p, s with
  | EmptyString, _ => true
  | String a p', String b s' => Ascii.eqb a b && HasPrefix s' p'
  | String _ _, EmptyString => false
  end.

(** The bytes [l] as a string. *)
Definition bytesOf (l : list nat) : string := string_of_list_ascii (map ascii_of_nat l).

(** The UTF-8 encodings of the white space of [unicode.IsSpace] outside
    ASCII: U+0085, U+00A0, U+1680, U+2000 to U+200A, U+2028, U+2029,
    U+202F, U+205F and U+3000. *)
Definition unicodeSpaces : list (list nat) :=
  [ [194; 133]; [194; 160]; [225; 154; 128];
    [226; 128; 128]; [226; 128; 129]; [226; 128; 130]; [226; 128; 131];
    [226; 128; 132]; [226; 128; 133]; [226; 128; 134]; [226; 128; 135];
    [226; 128; 136]; [226; 128; 137]; [226; 128; 138];
    [226; 128; 168]; [226; 128; 169]; [226; 128; 175];
    [226; 129; 159]; [227; 128; 128] ].

(** The length of the first of [encodings] that [s] starts with, 0 when
    it starts with none. *)
Fixpoint widthIn (encodings : list string) (s : string) : nat :=
  match encodings with
  | [] => 0
  | e :: rest => if HasPrefix s e then String.length e else widthIn rest s
  end.

(** The width in bytes of the white space that [s] starts with, as
    [utf8.DecodeRuneInString] and [unicode.IsSpace] find it; 0 when [s]
    starts with none. *)
Definition spaceWidth (s : string) : nat :=
  match s with
  | String c _ => if asciiSpace c then 1 else widthIn (map bytesOf unicodeSpaces) s
  | EmptyString => 0
  end.

(** The same for the white space that a string ends with
    ([utf8.DecodeLastRuneInString]), read on the string written
    backwards. *)
Definition spaceWidthBackwards (s : string) : nat :=
  match s with
  | String c _ =>
      if asciiSpace c then 1
      else widthIn (map (fun l => bytesOf (rev l)) unicodeSpaces) s
  | EmptyString => 0
  end.

(** [s] without the white space it starts with; [skip] bytes of a white
    space that was just found are still to be passed over. *)
Fixpoint trimFrom (width : string -> nat) (skip : nat) (s : string) : string :=
  match s with
  | EmptyString => EmptyString
  | String _ rest =>
      match skip with
      | S k => trimFrom width k rest
      | O =>
          match width s with
          | O => s
          | S k => trimFrom width k rest
          end
      end
  end.

(** [s] written backwards, byte by byte. *)
Definition reverse (s : string) : string :=
  string_of_list_ascii (rev (list_ascii_of_string s)).

(** [strings.TrimLeftFunc(s, unicode.IsSpace)]. *)
Definition TrimLeft (s : string) : string := trimFrom spaceWidth 0 s.

(** [strings.TrimRightFunc(s, unicode.IsSpace)]. *)
Definition TrimRight (s : string) : string :=
  reverse (trimFrom spaceWidthBackwards 0 (reverse s)).

(** [strings.TrimSpace]: the white space of [unicode.IsSpace] is removed
    at both ends, in ASCII (where Go has a path of its own, with the same
    result) and outside it.  Bytes that are no valid UTF-8 are no white
    space and stay. *)
Definition TrimSpace (s : string) : string := TrimRight (TrimLeft s).

Definition isUpper (c : ascii) : bool :=
  let n := nat_of_ascii c in (65 <=? n)%nat && (n <=? 90)%nat.

Definition lowerByte (c : ascii) : ascii :=
  if isUpper c then ascii_of_nat (nat_of_ascii c + 32) else c.

(** Whether every byte of [s] is below [utf8.RuneSelf]. *)
Fixpoint isASCII (s : string) : bool :=
  match s with
  | String c rest => (nat_of_ascii c <? 128)%nat && isASCII rest
  | EmptyString => true
  end.

(** The ASCII path of [strings.ToLower]: ['A'..'Z'] move to ['a'..'z'],
    every other byte stays. *)
Fixpoint lowerASCII (s : string) : string :=
  match s with
  | String c rest => String (lowerByte c) (lowerASCII rest)
  | EmptyString => EmptyString
  end.

(** [strings.ToLower].  A string of ASCII bytes takes the ASCII path
    (which returns it as it is when it has no upper-case letter).  For
    any other string Go returns [strings.Map(unicode.ToLower, s)], which
    reads the case tables of Unicode: [mapUnicode] stands for that
    function. *)
Definition ToLower (mapUnicode : string -> string) (s : string) : string :=
  if isASCII s then lowerASCII s else mapUnicode s.

(** [strings.Contains]. *)
Fixpoint Contains (s sub : string) : bool :=
  HasPrefix s sub ||
  match s with
  | String _ rest => Contains rest sub
  | EmptyString => false
  end.

(** One pass over [s] for [Split]: [skip] bytes of a separator that was
    just matched are still to be passed over, [cur] is the piece read so
    far, last byte first. *)
Fixpoint splitFrom (sep : string) (skip : nat) (cur : list ascii) (s : string)
  : list string :=
  match s with
  | EmptyString => [string_of_list_ascii (rev cur)]
  | String c rest =>
      match skip with
      | S k => splitFrom sep k cur rest
      | O =>
          if HasPrefix s sep
          then string_of_list_ascii (rev cur)
                 :: splitFrom sep (String.length sep - 1) [] rest
          else splitFrom sep 0 (c :: cur) rest
      end
  end.

(** [strings.Split(s, sep)] for a separator that is not empty (the
    program splits on ["\n"] only): the pieces between the occurrences
    of [sep], read from the left without overlap. *)
Definition Split (s sep : string) : list string := splitFrom sep 0 [] s.

(** One pass over [s] for [ReplaceAll], with the same [skip]. *)
Fixpoint replaceFrom (old new : string) (skip : nat) (s : string) : string :=
  match s with
  | EmptyString => EmptyString
  | String c rest =>
      match skip with
      | S k => replaceFrom old new k rest
      | O =>
          if HasPrefix s old
          then new ++ replaceFrom old new (String.length old - 1) rest
          else String c (replaceFrom old new 0 rest)
      end
  end.

(** [strings.ReplaceAll(s, old, new)] for an [old] that is not empty
    (the program replaces [" "] and ["{{activities}}"]). *)
Definition ReplaceAll (s old new : string) : string := replaceFrom old new 0 s.

(** [s[n:]] for an [n] within the string. *)
Fixpoint skipBytes (n : nat) (s : string) : string :=
  match n, s with
  | S k, String _ rest => skipBytes k rest
  | _, _ => s
  end.

(** One pass over [s] for [SplitN] with a count of 2: [cur] is the text
    before the place reached, last byte first. *)
Fixpoint cutFrom (sep : string) (cur : list ascii) (s : string) : list string :=
  match s with
  | EmptyString => [string_of_list_ascii (rev cur)]
  | String c rest =>
      if HasPrefix s sep
      then [string_of_list_ascii (rev cur); skipBytes (String.length sep) s]
      else cutFrom sep (c :: cur) rest
  end.

(** [strings.SplitN(s, sep, 2)] for a separator that is not empty (the
    program cuts at [":"]): the text before the first [sep] and the text
    after it, or [s] alone when [sep] is not in it. *)
Definition SplitN2 (s sep : string) : list string := cutFrom sep [] s.

End strings.

(** Go's [error] values: [fmt.Errorf] without [%w] and the errors of the
    libraries carry a message; [fmt.Errorf] with [%w] keeps the wrapped
    error next to the whole message. *)
Inductive error : Type :=
| errorString (msg : string)
| wrapError (msg : string) (err : error).

Definition Error (e : error) : string :=
  match e with
  | errorString msg => msg
  | wrapError msg _ => msg
  end.

(** [fmt.Errorf(prefix + "%w", err)]. *)
Definition Errorf_w (prefix : string) (err : error) : error :=
  wrapError (prefix ++ Error err) err.

Module time.

(** A [time.Time], as far as the program reads it: the calendar date that
    [Format("2006-01-02")] prints. *)
Record Time : Type := Date { year : Z; month : Z; day : Z }.

(** Go's [appendInt]: the decimal digits of [x], padded with zeros on the
    left up to [width], after a minus sign when [x] is negative. *)
Definition appendInt (x : Z) (width : nat) : string :=
  let digits := strings.itoa (Z.abs x) in
  let pad := string_of_list_ascii (repeat "0"%char (width - String.length digits)) in
  (if (x <? 0)%Z then "-" else "") ++ pad ++ digits.

(** [t.Format("2006-01-02")]. *)
Definition Format_2006_01_02 (t : Time) : string :=
  appendInt (year t) 4 ++ "-" ++ appendInt (month t) 2 ++ "-" ++ appendInt (day t) 2.

End time.

Module types.

(** Modelled from the spec: the struct [types.GitHubActivity] of the
    package internal/types, whose file is not among the sources.  Its six
    fields are the ones that the collectors set and that section 3 of the
    specification lists; [Type] is a Go string, which the [switch]
    statements compare with string constants, and is [Type_] here. *)
Record GitHubActivity : Type := {
  Type_ : string;
  Repository : string;
  Title : string;
  Description : string;
  URL : string;
  CreatedAt : time.Time
}.

End types.

(** ** Package llm: prompt assembly and report generation *)

Module llm.

Import strings.

Record ModelParameters : Type := {
  Temperature : float;
  TopP : float
}.

Record PromptMessage : Type := {
  Role : string;
  Content : string
}.

(** The field [ModelParameters] of the Go struct is [modelParameters]
    here, the name of its YAML key. *)
Record PromptConfig : Type := {
  Name : string;
  Description : string;
  Model : string;
  modelParameters : ModelParameters;
  Messages : list PromptMessage
}.

Record Message : Type := {
  msg_Role : string;
  msg_Content : string
}.

Record Request : Type := {
  req_Messages : list Message;
  req_Model : string;
  req_Temperature : float;
  req_TopP : float;
  req_Stream : bool
}.

(** One element of [Response.Choices]; [Message_Content] is its
    [Message.Content]. *)
Record Choice : Type := { Message_Content : string }.

Record Response : Type := { Choices : list Choice }.

Record Client : Type := { token : string }.

(** What [http.Client.Do] followed by [io.ReadAll] can give. *)
Inductive HTTPResult : Type :=
| DoFailed (err : error)
| ReadFailed (err : error)
| Received (StatusCode : Z) (body : string).

(** The collaborators of the package: the YAML decoding of the embedded
    file standup.prompt.yml, the JSON encoder and decoder, the
    completion endpoint, which answers the value of the Authorization
    header and the posted body, and the case tables of Unicode, as
    [strings.Map(unicode.ToLower, s)]. *)
Record Runtime : Type := {
  unicode_ToLower : string -> string;
  yaml_Unmarshal : sum error PromptConfig;
  json_Marshal : Request -> sum error string;
  http_Do : string -> string -> HTTPResult;
  json_Unmarshal : string -> sum error Response
}.

Definition modelTemperatureMap : list (string * float) :=
  [ ("openai/gpt-5-mini", 1%float);
    ("openai/gpt-5", 1%float) ].

(** [v, ok := m[key]] on a Go map given by its entries. *)
Fixpoint mapLookup (m : list (string * float)) (key : string) : option float :=
  match m with
  | [] => None
  | (k, v) :: rest => if String.eqb k key then Some v else mapLookup rest key
  end.

Definition getMappedTemperature (rt : Runtime) (model : string) : float * bool :=
  if String.eqb model "" then (0%float, false)
  else
    match mapLookup modelTemperatureMap (ToLower (unicode_ToLower rt) model) with
    | Some v => (v, true)
    | None => (0%float, false)
    end.

Definition loadPromptConfig (rt : Runtime) : sum error PromptConfig :=
  match yaml_Unmarshal rt with
  | inl err => inl (Errorf_w "failed to parse prompt configuration: " err)
  | inr config => inr config
  end.

(** The four slices that [formatActivitiesForLLM] sorts the records
    into. *)
Record Buckets : Type := {
  commits : list types.GitHubActivity;
  prs : list types.GitHubActivity;
  issues : list types.GitHubActivity;
  reviews : list types.GitHubActivity
}.

(** The body of the classifying loop: the [switch] on [activity.Type],
    which has no default case. *)
Definition classify (b : Buckets) (activity : types.GitHubActivity) : Buckets :=
  let t := types.Type_ activity in
  if String.eqb t "commit" then
    {| commits := (commits b ++ [activity])%list; prs := prs b;
       issues := issues b; reviews := reviews b |}
  else if String.eqb t "pull_request" then
    {| commits := commits b; prs := (prs b ++ [activity])%list;
       issues := issues b; reviews := reviews b |}
  else if String.eqb t "issue" then
    {| commits := commits b; prs := prs b;
       issues := (issues b ++ [activity])%list; reviews := reviews b |}
  else if String.eqb t "review" then
    {| commits := commits b; prs := prs b;
       issues := issues b; reviews := (reviews b ++ [activity])%list |}
  else b.

(** [fmt.Sprintf("- [%s] %s\n", a.Repository, a.Title)]. *)
Definition itemLine (a : types.GitHubActivity) : string :=
  "- [" ++ types.Repository a ++ "] " ++ types.Title a ++ nl.

(** [fmt.Sprintf("  Description: %s\n", text)]. *)
Definition descriptionLine (text : string) : string :=
  "  Description: " ++ text ++ nl.

(** The body of the loop over the commits; [builder] is the text
    written so far. *)
Definition writeCommit (builder : string) (commit : types.GitHubActivity) : string :=
  let builder := builder ++ itemLine commit in
  if negb (String.eqb (types.Description commit) (types.Title commit)) then
    let lines := Split (types.Description commit) nl in
    if (1 <? length lines)%nat && negb (String.eqb (nth 1 lines "") "")
    then builder ++ descriptionLine (TrimSpace (nth 1 lines ""))
    else builder
  else builder.

(** The body of the loops over the pull requests and over the issues,
    which are the same. *)
Definition writeWithBody (builder : string) (a : types.GitHubActivity) : string :=
  let builder := builder ++ itemLine a in
  if negb (String.eqb (types.Description a) "") && (len (types.Description a) <? 200)%Z
  then builder ++ descriptionLine (TrimSpace (types.Description a))
  else builder.

(** The body of the loop over the reviews. *)
Definition writeReview (builder : string) (review : types.GitHubActivity) : string :=
  builder ++ itemLine review.

(** One [if len(xs) > 0 { header; loop; blank line }] block. *)
Definition writeSection (header : string)
    (write : string -> types.GitHubActivity -> string)
    (xs : list types.GitHubActivity) (builder : string) : string :=
  if (0 <? length xs)%nat
  then fold_left write xs (builder ++ header ++ nl) ++ nl
  else builder.

Definition emptyBuckets : Buckets :=
  {| commits := []; prs := []; issues := []; reviews := [] |}.

Definition noActivity : string :=
  "No GitHub activity found for the specified period.".

Definition formatActivitiesForLLM (activities : list types.GitHubActivity) : string :=
  if (length activities =? 0)%nat then noActivity
  else
    let b := fold_left classify activities emptyBuckets in
    let builder := "" in
    let builder := writeSection "COMMITS:" writeCommit (commits b) builder in
    let builder := writeSection "PULL REQUESTS:" writeWithBody (prs b) builder in
    let builder := writeSection "ISSUES:" writeWithBody (issues b) builder in
    let builder := writeSection "CODE REVIEWS:" writeReview (reviews b) builder in
    builder.

(** [callGitHubModels]: [http.NewRequest] with the constant method and
    URL does not fail. *)
Definition callGitHubModels (rt : Runtime) (c : Client) (request : Request)
  : sum error Response :=
  match json_Marshal rt request with
  | inl err => inl (Errorf_w "failed to marshal request: " err)
  | inr jsonData =>
      match http_Do rt ("Bearer " ++ token c) jsonData with
      | DoFailed err => inl (Errorf_w "failed to make request: " err)
      | ReadFailed err => inl (Errorf_w "failed to read response: " err)
      | Received StatusCode body =>
          if negb (StatusCode =? 200)%Z then
            inl (errorString ("API request failed with status "
                                ++ itoa StatusCode ++ ": " ++ body))
          else
            match json_Unmarshal rt body with
            | inl err => inl (Errorf_w "failed to unmarshal response: " err)
            | inr response => inr response
            end
      end
  end.

(** The model that [GenerateStandupReport] selects. *)
Definition selectModel (model : string) (promptConfig : PromptConfig) : string :=
  if String.eqb model "" then Model promptConfig else model.

(** The request that [GenerateStandupReport] builds between the loading
    of the configuration and the call of the endpoint.  A nil
    [promptMessages] is [None]. *)
Definition assembleRequest (rt : Runtime) (activitySummary model : string)
    (promptMessages : option (list PromptMessage)) (promptConfig : PromptConfig)
  : Request :=
  let selectedModel := selectModel model promptConfig in
  let promptMessages :=
    match promptMessages with
    | None => Messages promptConfig
    | Some given => given
    end in
  let messages :=
    map (fun msg =>
           {| msg_Role := Role msg;
              msg_Content := ReplaceAll (Content msg) "{{activities}}" activitySummary |})
        promptMessages in
  let effectiveTemperature :=
    let '(mapped, ok) := getMappedTemperature rt selectedModel in
    if ok then mapped else Temperature (modelParameters promptConfig) in
  {| req_Messages := messages;
     req_Model := selectedModel;
     req_Temperature := effectiveTemperature;
     req_TopP := TopP (modelParameters promptConfig);
     req_Stream := false |}.

Definition GenerateStandupReport (rt : Runtime) (c : Client)
    (activities : list types.GitHubActivity) (model : string)
    (promptMessages : option (list PromptMessage)) : string * option error :=
  let activitySummary := formatActivitiesForLLM activities in
  match loadPromptConfig rt with
  | inl err => ("", Some err)
  | inr promptConfig =>
      let request := assembleRequest rt activitySummary model promptMessages promptConfig in
      match callGitHubModels rt c request with
      | inl err => ("", Some err)
      | inr response =>
          match Choices response with
          | [] => ("", Some (errorString "no response generated from the model"))
          | first :: _ => (TrimSpace (Message_Content first), None)
          end
      end
  end.

(** [NewClient]: [found] is the token that [auth.TokenForHost] finds
    (GH_TOKEN, GITHUB_TOKEN, the keychain), empty when there is none. *)
Definition NewClient (found : string) : sum error Client :=
  if String.eqb found "" then
    inl (errorString
           "no GitHub token found. Please run 'gh auth login' to authenticate")
  else inr {| token := found |}.

End llm.

(** ** Package github: the search collectors and the aggregator *)

Module github.

Import strings.
Import types.

(** One element of [searchResult.Items] once a reply is decoded, with
    the fields that the collectors read ([repository.full_name],
    [commit.message] and [commit.author.date] are nested objects in the
    reply).  A collector declares [searchResult] once, before its loop,
    and every reply is decoded into it: a field that a reply leaves out
    or sends as null keeps what the element at the same index held
    before.  An [Item] is what the element holds after the decoding,
    which is what the loop reads. *)
Record Item : Type := {
  sha : string;
  repository_full_name : string;
  commit_message : string;
  commit_author_date : time.Time;
  html_url : string;
  number : Z;
  title : string;
  body : string;
  state : string;
  created_at : time.Time
}.

(** [api.RESTClient]: what [Get(path, &searchResult)] gives for a path,
    given the paths requested before it, oldest first: an error, or the
    [Items] that [searchResult] holds once the reply is decoded into
    it. *)
Record RESTClient : Type := {
  respond : list string -> string -> sum error (list Item)
}.

Record Client : Type := { client : RESTClient }.

(** The state that the collectors thread: the paths requested so far,
    oldest first. *)
Definition World : Type := list string.

(** [c.client.Get(path, &searchResult)]. *)
Definition Get (c : Client) (path : string) (w : World)
  : sum error (list Item) * World :=
  (respond (client c) w path, (w ++ [path])%list).

(** What a collector returns: the activities and the error (nil is
    [None]). *)
Definition Result : Type := (list GitHubActivity * option error)%type.

Definition perPage : Z := 100.

(** The pages that the loop may still request after [page]. *)
Definition pagesLeft (page : Z) : nat := Z.to_nat (10 - page).

#[local] Opaque pagesLeft.

(** The pagination loop, which the four collectors repeat word for
    word: they differ in the path of the request ([path page]), in the
    record made of an item ([record]) and in what is returned for a
    failed request ([failure err]). *)
Equations? searchLoop (c : Client) (path : Z -> string)
    (record : Item -> GitHubActivity) (failure : error -> error)
    (page : Z) (activities : list GitHubActivity) (w : World)
  : Result * World by wf (pagesLeft page) lt :=
  searchLoop c path record failure page activities w :=
    match Get c (path page) w with
    | (inl err, w) => ((activities, Some (failure err)), w)
    | (inr Items, w) =>
        if (length Items =? 0)%nat then ((activities, None), w)
        else
          let activities := (activities ++ map record Items)%list in
          if (Z.of_nat (length Items) <? perPage)%Z then ((activities, None), w)
          else
            let page := (page + 1)%Z in
            match Z_gt_dec page 10 with
            | left _ => ((activities, None), w)
            | right _ => searchLoop c path record failure page activities w
            end
    end.
Proof. with_strategy transparent [pagesLeft] (unfold pagesLeft; lia). Qed.

#[local] Transparent pagesLeft.

Definition commitRecord (item : Item) : GitHubActivity :=
  {| Type_ := "commit";
     Repository := repository_full_name item;
     Title := nth 0 (Split (commit_message item) nl) "";
     Description := commit_message item;
     URL := html_url item;
     CreatedAt := commit_author_date item |}.

Definition pullRequestRecord (item : Item) : GitHubActivity :=
  {| Type_ := "pull_request";
     Repository := repository_full_name item;
     Title := "PR #" ++ itoa (number item) ++ ": " ++ title item;
     Description := body item;
     URL := html_url item;
     CreatedAt := created_at item |}.

Definition issueRecord (item : Item) : GitHubActivity :=
  {| Type_ := "issue";
     Repository := repository_full_name item;
     Title := "Issue #" ++ itoa (number item) ++ ": " ++ title item;
     Description := body item;
     URL := html_url item;
     CreatedAt := created_at item |}.

Definition reviewRecord (item : Item) : GitHubActivity :=
  {| Type_ := "review";
     Repository := repository_full_name item;
     Title := "Reviewed PR #" ++ itoa (number item) ++ ": " ++ title item;
     Description := "Reviewed pull request: " ++ title item;
     URL := html_url item;
     CreatedAt := created_at item |}.

(** [baseQuery] of a collector that takes [repo]: the term [repo:] is
    added when [repo] is not empty. *)
Definition withRepo (baseQuery repo : string) : string :=
  if negb (String.eqb repo "") then baseQuery ++ " repo:" ++ repo else baseQuery.

Definition commitsBaseQuery (username repo : string) (startDate endDate : time.Time)
  : string :=
  withRepo ("author:" ++ username ++ " committer-date:"
              ++ time.Format_2006_01_02 startDate ++ ".."
              ++ time.Format_2006_01_02 endDate) repo.

(** [getPullRequests] and [getIssues] build the same [baseQuery]. *)
Definition createdBaseQuery (username repo : string) (startDate endDate : time.Time)
  : string :=
  withRepo ("author:" ++ username ++ " created:"
              ++ time.Format_2006_01_02 startDate ++ ".."
              ++ time.Format_2006_01_02 endDate) repo.

(** [getReviews] has no parameter [repo]. *)
Definition reviewsBaseQuery (username : string) (startDate endDate : time.Time)
  : string :=
  "reviewed-by:" ++ username ++ " created:"
    ++ time.Format_2006_01_02 startDate ++ ".."
    ++ time.Format_2006_01_02 endDate.

Definition escape (baseQuery : string) : string := ReplaceAll baseQuery " " "%20".

Definition commitsPath (escapedQuery : string) (page : Z) : string :=
  "search/commits?q=" ++ escapedQuery ++ "&per_page=" ++ itoa perPage
    ++ "&page=" ++ itoa page ++ "&sort=committer-date&order=desc".

(** The path of the three collectors on search/issues; [kind] is
    ["pr"] or ["issue"]. *)
Definition issuesPath (kind escapedQuery : string) (page : Z) : string :=
  "search/issues?q=" ++ escapedQuery ++ "+type:" ++ kind ++ "&per_page="
    ++ itoa perPage ++ "&page=" ++ itoa page ++ "&sort=created&order=desc".

Definition getCommits (c : Client) (username repo : string)
    (startDate endDate : time.Time) (w : World) : Result * World :=
  let escapedQuery := escape (commitsBaseQuery username repo startDate endDate) in
  searchLoop c (commitsPath escapedQuery) commitRecord
    (Errorf_w "commits search failed (this is common due to GitHub API restrictions): ")
    1 [] w.

Definition getPullRequests (c : Client) (username repo : string)
    (startDate endDate : time.Time) (w : World) : Result * World :=
  let escapedQuery := escape (createdBaseQuery username repo startDate endDate) in
  searchLoop c (issuesPath "pr" escapedQuery) pullRequestRecord (fun err => err) 1 [] w.

Definition getIssues (c : Client) (username repo : string)
    (startDate endDate : time.Time) (w : World) : Result * World :=
  let escapedQuery := escape (createdBaseQuery username repo startDate endDate) in
  searchLoop c (issuesPath "issue" escapedQuery) issueRecord (fun err => err) 1 [] w.

Definition getReviews (c : Client) (username : string)
    (startDate endDate : time.Time) (w : World) : Result * World :=
  let escapedQuery := escape (reviewsBaseQuery username startDate endDate) in
  searchLoop c (issuesPath "pr" escapedQuery) reviewRecord (fun err => err) 1 [] w.

Definition CollectActivity (c : Client) (username repo : string)
    (startDate endDate : time.Time) (w : World) : Result * World :=
  let activities : list GitHubActivity := [] in
  let '((commits, err), w) := getCommits c username repo startDate endDate w in
  let activities :=
    match err with
    | Some _ => activities
    | None => (activities ++ commits)%list
    end in
  let '((prs, err), w) := getPullRequests c username repo startDate endDate w in
  match err with
  | Some err => (([], Some (Errorf_w "failed to get pull requests: " err)), w)
  | None =>
      let activities := (activities ++ prs)%list in
      let '((issues, err), w) := getIssues c username repo startDate endDate w in
      match err with
      | Some err => (([], Some (Errorf_w "failed to get issues: " err)), w)
      | None =>
          let activities := (activities ++ issues)%list in
          let '((reviews, err), w) := getReviews c username startDate endDate w in
          match err with
          | Some err => (([], Some (Errorf_w "failed to get reviews: " err)), w)
          | None => (((activities ++ reviews)%list, None), w)
          end
      end
  end.

(** [NewClient]: [made] is what [api.DefaultRESTClient] returns. *)
Definition NewClient (made : sum error RESTClient) : sum error Client :=
  match made with
  | inl err => inl err
  | inr rest => inr {| client := rest |}
  end.

(** [GetCurrentUser]: [user w] is the server's reply to GET user after
    the requests [w], an error or the decoded [login]. *)
Definition GetCurrentUser (user : World -> sum error string) (w : World)
  : (string * option error) * World :=
  match user w with
  | inl err => (("", Some err), (w ++ ["user"])%list)
  | inr Login => ((Login, None), (w ++ ["user"])%list)
  end.

End github.

(** ** Package main: the command *)

Module main.

(** The [switch] of [countActivities] on one record, which has no
    default case. *)
Definition countSwitch (counts : Z * Z * Z * Z) (activity : types.GitHubActivity)
  : Z * Z * Z * Z :=
  let '(commits, prs, issues, reviews) := counts in
  let t := types.Type_ activity in
  if String.eqb t "commit" then (commits + 1, prs, issues, reviews)%Z
  else if String.eqb t "pull_request" then (commits, prs + 1, issues, reviews)%Z
  else if String.eqb t "issue" then (commits, prs, issues + 1, reviews)%Z
  else if String.eqb t "review" then (commits, prs, issues, reviews + 1)%Z
  else (commits, prs, issues, reviews).

(** [countActivities]: the named results start at zero. *)
Definition countActivities (activities : list types.GitHubActivity)
  : Z * Z * Z * Z :=
  fold_left countSwitch activities (0, 0, 0, 0)%Z.

Record Flags : Type := {
  flagDays : Z;
  flagModel : string;
  flagPrompts : list string;
  flagRepo : string;
  flagUser : string
}.

(** The defaults that [init] registers. *)
Definition defaultFlags : Flags :=
  {| flagDays := 1;
     flagModel := "openai/gpt-4o";
     flagPrompts := [];
     flagRepo := "";
     flagUser := "" |}.

(** What the command finds around it: the REST client that
    [api.DefaultRESTClient] makes or its error, the server's reply to
    GET user, the clock with [Time.AddDate], the token that the [auth]
    package finds, and the collaborators of the package llm. *)
Record Host : Type := {
  DefaultRESTClient : sum error github.RESTClient;
  user : github.World -> sum error string;
  Now : time.Time;
  AddDate : time.Time -> Z -> Z -> Z -> time.Time;
  TokenForHost : string;
  models : llm.Runtime
}.

(** What one run of the command leaves: the text printed on the standard
    output, the error returned to [main], and the requests sent to the
    REST API. *)
Record Outcome : Type := {
  stdout : string;
  err : option error;
  requests : github.World
}.

(** The loop of [runStandup] over [flagPrompts]; [promptMessages] holds
    the messages parsed so far. *)
Fixpoint parsePrompts (prompts : list string) (promptMessages : list llm.PromptMessage)
  : sum error (list llm.PromptMessage) :=
  match prompts with
  | [] => inr promptMessages
  | promptStr :: rest =>
      let parts := strings.SplitN2 promptStr ":" in
      if negb (length parts =? 2)%nat then
        inl (errorString
               ("invalid prompt format (expected 'rule:message'): " ++ promptStr))
      else
        parsePrompts rest
          (promptMessages
             ++ [ {| llm.Role := nth 0 parts ""; llm.Content := nth 1 parts "" |} ])%list
  end.

(** [runStandup], in the first of the two versions that the file holds
    (the second one prints progress lines between the same steps).  The
    process starts with no request sent. *)
Definition runStandup (host : Host) (flags : Flags) : Outcome :=
  match github.NewClient (DefaultRESTClient host) with
  | inl e =>
      {| stdout := ""; requests := [];
         err := Some (Errorf_w "failed to create GitHub client: " e) |}
  | inr githubClient =>
      let '((login, e), w) :=
        if String.eqb (flagUser flags) ""
        then github.GetCurrentUser (user host) []
        else ((flagUser flags, None), []) in
      match e with
      | Some e =>
          {| stdout := ""; requests := w;
             err := Some (Errorf_w "failed to get current user: " e) |}
      | None =>
          let endDate := Now host in
          let startDate := AddDate host endDate 0 0 (- flagDays flags) in
          let '((activities, e), w) :=
            github.CollectActivity githubClient login (flagRepo flags)
              startDate endDate w in
          match e with
          | Some e =>
              {| stdout := ""; requests := w;
                 err := Some (Errorf_w "failed to collect GitHub activity: " e) |}
          | None =>
              if (length activities =? 0)%nat then
                {| stdout := ""; requests := w; err := None |}
              else
                match llm.NewClient (TokenForHost host) with
                | inl e =>
                    {| stdout := ""; requests := w;
                       err := Some (Errorf_w "failed to create LLM client: " e) |}
                | inr llmClient =>
                    let parsed :=
                      if (0 <? length (flagPrompts flags))%nat
                      then match parsePrompts (flagPrompts flags) [] with
                           | inl e => inl e
                           | inr promptMessages => inr (Some promptMessages)
                           end
                      else inr None in
                    match parsed with
                    | inl e => {| stdout := ""; requests := w; err := Some e |}
                    | inr promptMessages =>
                        let '(report, e) :=
                          llm.GenerateStandupReport (models host) llmClient activities
                            (flagModel flags) promptMessages in
                        match e with
                        | Some e =>
                            {| stdout := ""; requests := w;
                               err := Some (Errorf_w
                                              "failed to generate standup report: " e) |}
                        | None =>
                            {| stdout := report ++ strings.nl; requests := w;
                               err := None |}
                        end
                    end
                end
          end
      end
  end.

End main.


(** ** Definitions used by the statements below *)

Import strings.

(** The text that the loop over the commits writes for one record. *)
Definition commitEntry (a : types.GitHubActivity) : string := llm.writeCommit "" a.

(** The text that the loops over the pull requests and the issues write
    for one record. *)
Definition bodyEntry (a : types.GitHubActivity) : string := llm.writeWithBody "" a.

(** The condition under which [llm.writeWithBody] writes a description
    line. *)
Definition shortBody (a : types.GitHubActivity) : Prop :=
  types.Description a <> "" /\ (len (types.Description a) < 200)%Z.

(** The four values of [Type] that the [switch] statements know. *)
Definition knownType (t : string) : bool :=
  String.eqb t "commit" || String.eqb t "pull_request"
  || String.eqb t "issue" || String.eqb t "review".

Definition hasType (t : string) (a : types.GitHubActivity) : bool :=
  String.eqb (types.Type_ a) t.

(** The sum of four counts. *)
Definition total (counts : Z * Z * Z * Z) : Z :=
  let '(commits, prs, issues, reviews) := counts in
  (commits + prs + issues + reviews)%Z.

(** A string with no line feed in it. *)
Definition singleLine (s : string) : bool := negb (Contains s nl).

(** A commit item of the search reply with the given message. *)
Definition commitItem (repository message : string) : github.Item :=
  {| github.sha := "3f2a9c1";
     github.repository_full_name := repository;
     github.commit_message := message;
     github.commit_author_date := time.Date 2024 5 17;
     github.html_url := "https://github.com/" ++ repository ++ "/commit/3f2a9c1";
     github.number := 0;
     github.title := "";
     github.body := "";
     github.state := "";
     github.created_at := time.Date 2024 5 17 |}.

(** The text of one section: nothing for no record, else the header, the
    entries and a blank line. *)
Definition sectionText (header : string) (entry : types.GitHubActivity -> string)
    (xs : list types.GitHubActivity) : string :=
  match xs with
  | [] => ""
  | _ => header ++ nl ++ String.concat "" (map entry xs) ++ nl
  end.

(** The headers of the four sections. *)
Definition sectionHeaders : list string :=
  ["COMMITS:"; "PULL REQUESTS:"; "ISSUES:"; "CODE REVIEWS:"].

(** A record for the examples: only the fields that the formatting reads
    vary. *)
Definition activity (type repository title description : string)
  : types.GitHubActivity :=
  {| types.Type_ := type;
     types.Repository := repository;
     types.Title := title;
     types.Description := description;
     types.URL := "https://github.com/" ++ repository;
     types.CreatedAt := time.Date 2024 5 17 |}.

(** [n] copies of the byte [c]. *)
Definition bytes (n : nat) (c : ascii) : string := string_of_list_ascii (repeat c n).

(** Two bytes that are equal, or the upper and the lower case of one
    ASCII letter: the codes of 'A'..'Z' are 65..90, and the lower case
    of a letter is 32 above its upper case. *)
Definition foldByte (c d : ascii) : bool :=
  let m := nat_of_ascii c in
  let n := nat_of_ascii d in
  (m =? n)%nat
  || ((65 <=? m)%nat && (m <=? 90)%nat && (n =? m + 32)%nat)
  || ((65 <=? n)%nat && (n <=? 90)%nat && (m =? n + 32)%nat).

(** Equality of two strings up to the case of their ASCII letters. *)
Fixpoint EqualFold (s t : string) : bool :=
  match s, t with
  | EmptyString, EmptyString => true
  | String c s', String d t' => foldByte c d && EqualFold s' t'
  | _, _ => false
  end.

(** The letters U+0130 (capital I with a dot above) and U+212A (the
    Kelvin sign) in UTF-8. *)
Definition dottedI : string := bytesOf [196; 176].
Definition kelvinSign : string := bytesOf [226; 132; 170].

(** The case tables of Unicode for the examples: what
    [strings.Map(unicode.ToLower, s)] gives for a string whose letters
    outside ASCII are U+0130 and U+212A, which it maps to "i" and "k". *)
Definition exampleLower (s : string) : string :=
  lowerASCII (ReplaceAll (ReplaceAll s dottedI "i") kelvinSign "k").

(** The number of characters of a string of valid UTF-8
    ([utf8.RuneCountInString]): the bytes that do not continue a
    character, those outside 128..191. *)
Fixpoint runeCount (s : string) : nat :=
  match s with
  | String c rest =>
      let n := nat_of_ascii c in
      (if (128 <=? n)%nat && (n <=? 191)%nat then 0 else 1) + runeCount rest
  | EmptyString => 0
  end.

(** [n] copies of the string [s]. *)
Fixpoint copies (n : nat) (s : string) : string :=
  match n with
  | O => ""
  | S m => s ++ copies m s
  end.

(** A body of 50 characters, each the letter U+10348 (Gothic hwair),
    which UTF-8 writes in the four bytes F0 90 8D 88. *)
Definition wideBody : string := copies 50 (bytesOf [240; 144; 141; 136]).

(** The no-break space U+00A0 and the em space U+2003 in UTF-8. *)
Definition noBreakSpace : string := bytesOf [194; 160].
Definition emSpace : string := bytesOf [226; 128; 131].

(** A query with every space written as "%20" and every other byte as it
    is. *)
Fixpoint spacesAsPercent20 (s : string) : string :=
  match s with
  | String c rest =>
      if Ascii.eqb c " " then "%20" ++ spacesAsPercent20 rest
      else String c (spacesAsPercent20 rest)
  | EmptyString => EmptyString
  end.

(** A prompt configuration for the examples. *)
Definition examplePrompt : llm.PromptConfig :=
  {| llm.Name := "Standup Report Generator";
     llm.Description := "Generates a standup report from GitHub activity";
     llm.Model := "openai/gpt-4o";
     llm.modelParameters := {| llm.Temperature := 0.5%float; llm.TopP := 0.25%float |};
     llm.Messages :=
       [ {| llm.Role := "system"; llm.Content := "You write standup reports." |};
         {| llm.Role := "user"; llm.Content := "Activity: {{activities}}" |} ] |}.

(** A run of the completion endpoint for the examples: every request is
    answered with status 200 and one choice, whose content is
    [content]. *)
Definition exampleRuntime (content : string) : llm.Runtime :=
  {| llm.unicode_ToLower := exampleLower;
     llm.yaml_Unmarshal := inr examplePrompt;
     llm.json_Marshal := fun request => inr ("{model: " ++ llm.req_Model request ++ "}");
     llm.http_Do := fun authorization jsonData => llm.Received 200 "{choices: [...]}";
     llm.json_Unmarshal :=
       fun body => inr {| llm.Choices := [ {| llm.Message_Content := content |} ] |} |}.

(** A run of a collector from the world [w] is bounded: it requests
    between 1 and 10 pages; a reply of fewer than 100 items (an empty one
    too) is the last one requested; and when the server sends at most 100
    items per page, as asked by [per_page=100], at most 1000 records are
    returned. *)
Definition boundedPagination (c : github.Client) (w : github.World)
    (run : github.Result * github.World) : Prop :=
  exists requested : list string,
    snd run = (w ++ requested)%list
    /\ (1 <= length requested <= 10)%nat
    /\ (forall k p Items,
          nth_error requested k = Some p ->
          github.respond (github.client c) (w ++ firstn k requested) p = inr Items ->
          (length Items < 100)%nat ->
          length requested = S k)
    /\ ((forall h p Items, github.respond (github.client c) h p = inr Items ->
                           (length Items <= 100)%nat)
        -> (length (fst (fst run)) <= 1000)%nat).

(** An issue, pull request or review item of the search reply. *)
Definition issueItem (repository : string) (number : Z) (title body : string)
  : github.Item :=
  {| github.sha := "";
     github.repository_full_name := repository;
     github.commit_message := "";
     github.commit_author_date := time.Date 0 0 0;
     github.html_url := "https://github.com/" ++ repository ++ "/issues/" ++ itoa number;
     github.number := number;
     github.title := title;
     github.body := body;
     github.state := "open";
     github.created_at := time.Date 2024 5 17 |}.

(** A server on which every search finds nothing. *)
Definition quietServer : github.Client :=
  {| github.client := {| github.respond := fun _ _ => inr [] |} |}.

(** A server with full pages of commits without end, and nothing else. *)
Definition busyServer : github.Client :=
  {| github.client :=
       {| github.respond := fun _ p =>
            if HasPrefix p "search/commits"
            then inr (repeat (commitItem "octo/demo" "Fix bug") 100)
            else inr [] |} |}.

(** A server whose commit search gives one full page and then fails, and
    whose other searches find one item each. *)
Definition flakyCommits : github.Client :=
  {| github.client :=
       {| github.respond := fun _ p =>
            if HasPrefix p "search/commits" then
              if Contains p "&page=1&"
              then inr (repeat (commitItem "octo/demo" "Fix bug") 100)
              else inl (errorString "HTTP 403: Forbidden")
            else inr [issueItem "octo/demo" 7 "Add cache" "Caches the replies."] |} |}.

(** A server whose commit search gives a full page, then a page of 40
    commits, and would give full pages after it. *)
Definition twoPages : github.Client :=
  {| github.client :=
       {| github.respond := fun h p =>
            if HasPrefix p "search/commits" then
              inr (repeat (commitItem "octo/demo" "Fix bug")
                     (if (length h =? 1)%nat then 40 else 100))
            else inr [] |} |}.

(** A server whose commit and pull request searches work and whose issue
    search fails. *)
Definition failingIssues : github.Client :=
  {| github.client :=
       {| github.respond := fun _ p =>
            if HasPrefix p "search/commits" then inr [commitItem "octo/demo" "Fix bug"]
            else if Contains p "+type:issue"
                 then inl (errorString "HTTP 502: Bad Gateway")
                 else inr [issueItem "octo/demo" 7 "Add cache" "Caches the replies."] |} |}.

Definition monday : time.Time := time.Date 2024 5 13.
Definition tuesday : time.Time := time.Date 2024 5 14.

(** The page numbers [first], [first + 1], ... ([n] of them). *)
Fixpoint pageNumbers (first : Z) (n : nat) : list Z :=
  match n with
  | O => []
  | S m => first :: pageNumbers (first + 1) m
  end.

(** What [Get] gives for the requests [requested], sent one after the
    other from the world [w]: for each one an error, or the [Items] that
    [searchResult] holds after it. *)
Fixpoint repliesTo (c : github.Client) (w : github.World) (requested : list string)
  : list (sum error (list github.Item)) :=
  match requested with
  | [] => []
  | p :: rest =>
      github.respond (github.client c) w p :: repliesTo c (w ++ [p])%list rest
  end.

(** The items that [searchResult] held after the requests that were
    answered, in their order. *)
Definition itemsOf (replies : list (sum error (list github.Item))) : list github.Item :=
  concat (map (fun reply => match reply with
                            | inl _ => []
                            | inr Items => Items
                            end) replies).

(** A run of a collector asks for the pages 1, 2, ... of its search, in
    this order and without a gap. *)
Definition pagesInOrder (path : Z -> string) (w : github.World)
    (run : github.Result * github.World) : Prop :=
  exists n : nat,
    (1 <= n <= 10)%nat /\ snd run = (w ++ map path (pageNumbers 1 n))%list.


(** A run returns an error exactly for a failed request: the failed
    request is its last one, the error is [failure] of the error of that
    request, and a run whose requests are all answered returns none. *)
Definition failsWithRequest (c : github.Client) (failure : error -> error)
    (w : github.World) (run : github.Result * github.World) : Prop :=
  exists requested : list string,
    snd run = (w ++ requested)%list
    /\ (forall k p e,
          nth_error requested k = Some p ->
          github.respond (github.client c) (w ++ firstn k requested) p = inl e ->
          length requested = S k /\ snd (fst run) = Some (failure e))
    /\ ((forall k p, nth_error requested k = Some p ->
           exists Items,
             github.respond (github.client c) (w ++ firstn k requested) p = inr Items)
        -> snd (fst run) = None).

(** A text with no opening brace in it. *)
Definition noBrace (s : string) : bool := negb (Contains s "{").

(** The messages that [llm.GenerateStandupReport] renders: the given
    ones, or the configured ones when none is given. *)
Definition promptSource (promptMessages : option (list llm.PromptMessage))
    (promptConfig : llm.PromptConfig) : list llm.PromptMessage :=
  match promptMessages with
  | None => llm.Messages promptConfig
  | Some given => given
  end.

(** A run of the completion endpoint for the examples, which answers
    every request with the status [StatusCode] and the body [body]; the
    body would decode to one choice. *)
Definition statusRuntime (StatusCode : Z) (body : string) : llm.Runtime :=
  {| llm.unicode_ToLower := exampleLower;
     llm.yaml_Unmarshal := inr examplePrompt;
     llm.json_Marshal := fun request => inr ("{model: " ++ llm.req_Model request ++ "}");
     llm.http_Do := fun authorization jsonData => llm.Received StatusCode body;
     llm.json_Unmarshal :=
       fun _ => inr {| llm.Choices := [ {| llm.Message_Content := "Report" |} ] |} |}.

(** The flag value [role:content] of a prompt message. *)
Definition promptFlag (message : string * string) : string :=
  fst message ++ ":" ++ snd message.

Definition promptOf (message : string * string) : llm.PromptMessage :=
  {| llm.Role := fst message; llm.Content := snd message |}.

(** The user that [main.runStandup] collects the activity of, and the
    requests sent when it is known: the user of the flag, with no
    request, or the login that the server answers to GET user. *)
Definition signedIn (host : main.Host) (flags : main.Flags) (login : string)
    (w : github.World) : Prop :=
  (main.flagUser flags <> "" /\ login = main.flagUser flags /\ w = [])
  \/ (main.flagUser flags = "" /\ main.user host [] = inr login /\ w = ["user"]).

(** The prompt messages that [main.runStandup] passes on for the prompt
    flags: nil for no flag, else the messages parsed from the flags. *)
Definition promptsOfFlags (flags : main.Flags)
    (promptMessages : option (list llm.PromptMessage)) : Prop :=
  (main.flagPrompts flags = [] /\ promptMessages = None)
  \/ (main.flagPrompts flags <> []
      /\ exists parsed,
          main.parsePrompts (main.flagPrompts flags) [] = inr parsed
          /\ promptMessages = Some parsed).

(** The host [host] with another reply to GET user. *)
Definition withUser (host : main.Host) (other : github.World -> sum error string)
  : main.Host :=
  {| main.DefaultRESTClient := main.DefaultRESTClient host;
     main.user := other;
     main.Now := main.Now host;
     main.AddDate := main.AddDate host;
     main.TokenForHost := main.TokenForHost host;
     main.models := main.models host |}.

(** A host for the examples: the REST client of [server], the login
    "alice", Tuesday as the present day, a clock that goes back to Monday
    whatever the number of days, the token [found] and an endpoint that
    answers the report "Yesterday I fixed a bug." *)
Definition exampleHost (server : github.Client) (found : string) : main.Host :=
  {| main.DefaultRESTClient := inr (github.client server);
     main.user := fun _ => inr "alice";
     main.Now := tuesday;
     main.AddDate := fun _ _ _ _ => monday;
     main.TokenForHost := found;
     main.models := exampleRuntime (" Yesterday I fixed a bug." ++ nl) |}.

(** A server whose commit search finds one commit and whose other
    searches find nothing. *)
Definition oneCommitServer : github.Client :=
  {| github.client :=
       {| github.respond := fun _ p =>
            if HasPrefix p "search/commits"
            then inr [commitItem "octo/demo" "Fix bug"]
            else inr [] |} |}.

(** ** The library functions on examples *)

Example TrimSpace_report : TrimSpace ("  Report text  " ++ nl) = "Report text".
Proof. reflexivity. Qed.

Example TrimSpace_inner : TrimSpace (nl ++ " a  b " ++ nl) = "a  b".
Proof. reflexivity. Qed.

Example Split_message :
  Split ("Fix bug" ++ nl ++ nl ++ "Details here") nl = ["Fix bug"; ""; "Details here"].
Proof. reflexivity. Qed.

Example Split_no_separator : Split "Fix bug" nl = ["Fix bug"].
Proof. reflexivity. Qed.

Example Split_empty : Split "" nl = [""].
Proof. reflexivity. Qed.

Example ReplaceAll_spaces : ReplaceAll "author:alice  repo:o/r" " " "%20"
                            = "author:alice%20%20repo:o/r".
Proof. reflexivity. Qed.

Example ReplaceAll_placeholder :
  ReplaceAll "Activity: {{activities}} ({{activities}})" "{{activities}}" "none"
  = "Activity: none (none)".
Proof. reflexivity. Qed.

Example TrimSpace_unicode :
  TrimSpace (noBreakSpace ++ " Report text" ++ emSpace ++ nl) = "Report text".
Proof. vm_compute. reflexivity. Qed.

Example TrimSpace_not_inside :
  TrimSpace (" a" ++ noBreakSpace ++ "b ") = "a" ++ noBreakSpace ++ "b".
Proof. vm_compute. reflexivity. Qed.

Example TrimSpace_all_space : TrimSpace (" " ++ emSpace ++ nl) = "".
Proof. vm_compute. reflexivity. Qed.

Example ToLower_model :
  ToLower exampleLower "OpenAI/GPT-5-Mini" = "openai/gpt-5-mini".
Proof. reflexivity. Qed.

Example ToLower_dotted_I :
  ToLower exampleLower ("opena" ++ dottedI ++ "/gpt-5") = "openai/gpt-5".
Proof. vm_compute. reflexivity. Qed.

Example itoa_numbers : map itoa [0; 7; 100; -12]%Z = ["0"; "7"; "100"; "-12"].
Proof. reflexivity. Qed.

Example Format_date : time.Format_2006_01_02 (time.Date 2024 5 7) = "2024-05-07".
Proof. reflexivity. Qed.

Example Errorf_message :
  Error (Errorf_w "failed to get issues: " (errorString "HTTP 502"))
  = "failed to get issues: HTTP 502".
Proof. reflexivity. Qed.

(** ** Strings *)

Lemma append_nil_r (s : string) : s ++ "" = s.
Proof. induction s as [|c s IH]; simpl; [reflexivity | now rewrite IH]. Qed.

Lemma append_assoc (s t u : string) : (s ++ t) ++ u = s ++ t ++ u.
Proof. induction s as [|c s IH]; simpl; [reflexivity | now rewrite IH]. Qed.

Lemma append_inj_l (s t u : string) : s ++ t = s ++ u -> t = u.
Proof.
  induction s as [|c s IH]; simpl; intros H; [assumption |].
  injection H as H. now apply IH.
Qed.

Lemma append_self_nil (s t : string) : s = s ++ t -> t = "".
Proof.
  intros H. apply (append_inj_l s). now rewrite append_nil_r.
Qed.

(** ** The formatted activity block *)

Section Formatting.

Import llm.

Lemma writeCommit_append (builder : string) (a : types.GitHubActivity) :
  writeCommit builder a = builder ++ commitEntry a.
Proof.
  unfold commitEntry, writeCommit; cbv zeta.
  destruct (negb _); [destruct (_ && _) |]; now rewrite ?append_assoc.
Qed.

Lemma writeWithBody_append (builder : string) (a : types.GitHubActivity) :
  writeWithBody builder a = builder ++ bodyEntry a.
Proof.
  unfold bodyEntry, writeWithBody; cbv zeta.
  destruct (_ && _); now rewrite ?append_assoc.
Qed.

Lemma fold_left_write (write : string -> types.GitHubActivity -> string)
    (entry : types.GitHubActivity -> string)
    (Hwrite : forall b a, write b a = b ++ entry a)
    (xs : list types.GitHubActivity) (builder : string) :
  fold_left write xs builder = builder ++ String.concat "" (map entry xs).
Proof.
  revert builder; induction xs as [|x xs IH]; intros builder; simpl.
  - now rewrite append_nil_r.
  - rewrite IH, Hwrite, append_assoc. f_equal.
    destruct (map entry xs) eqn:E; simpl; [|reflexivity].
    now rewrite append_nil_r.
Qed.

(** A section is added after the text written before it. *)
Lemma writeSection_text header write entry xs (builder : string)
    (Hwrite : forall b a, write b a = b ++ entry a) :
  writeSection header write xs builder = builder ++ sectionText header entry xs.
Proof.
  unfold writeSection, sectionText. destruct xs as [|x xs].
  - simpl. now rewrite append_nil_r.
  - cbn [length Nat.ltb Nat.leb].
    rewrite (fold_left_write write entry Hwrite).
    now rewrite !append_assoc.
Qed.

Lemma writeReview_append (builder : string) (a : types.GitHubActivity) :
  writeReview builder a = builder ++ writeReview "" a.
Proof. reflexivity. Qed.

(** The classifying loop keeps, in each slice, the records of its type in
    their order. *)
Lemma classify_filter (activities : list types.GitHubActivity) (b : Buckets) :
  fold_left classify activities b =
  {| commits := (commits b ++ filter (hasType "commit") activities)%list;
     prs := (prs b ++ filter (hasType "pull_request") activities)%list;
     issues := (issues b ++ filter (hasType "issue") activities)%list;
     reviews := (reviews b ++ filter (hasType "review") activities)%list |}.
Proof.
  revert b; induction activities as [|a l IH]; intros b; simpl.
  - rewrite !app_nil_r. now destruct b.
  - rewrite IH. unfold classify, hasType. cbv zeta.
    destruct (String.eqb_spec (types.Type_ a) "commit") as [E|_];
      [rewrite ?E; simpl; now rewrite <- !app_assoc |].
    destruct (String.eqb_spec (types.Type_ a) "pull_request") as [E|_];
      [rewrite ?E; simpl; now rewrite <- !app_assoc |].
    destruct (String.eqb_spec (types.Type_ a) "issue") as [E|_];
      [rewrite ?E; simpl; now rewrite <- !app_assoc |].
    destruct (String.eqb_spec (types.Type_ a) "review") as [E|_];
      [rewrite ?E; simpl; now rewrite <- !app_assoc |].
    reflexivity.
Qed.

(** A record of no known type enters no slice. *)
Lemma classify_unknown (a : types.GitHubActivity) (b : Buckets) :
  knownType (types.Type_ a) = false -> classify b a = b.
Proof.
  unfold knownType, classify. intros H.
  apply orb_false_elim in H as [H H4].
  apply orb_false_elim in H as [H H3].
  apply orb_false_elim in H as [H1 H2].
  now rewrite H1, H2, H3, H4.
Qed.

Lemma classify_skip l1 a l2 :
  knownType (types.Type_ a) = false ->
  fold_left classify (l1 ++ a :: l2) emptyBuckets
  = fold_left classify (l1 ++ l2) emptyBuckets.
Proof.
  intros H. rewrite !fold_left_app. simpl. now rewrite classify_unknown.
Qed.

(** The block for a list that is not empty: the four sections in their
    fixed order, each over the records of its type. *)
Lemma format_sections (activities : list types.GitHubActivity) :
  activities <> [] ->
  formatActivitiesForLLM activities =
    sectionText "COMMITS:" commitEntry (filter (hasType "commit") activities)
    ++ sectionText "PULL REQUESTS:" bodyEntry (filter (hasType "pull_request") activities)
    ++ sectionText "ISSUES:" bodyEntry (filter (hasType "issue") activities)
    ++ sectionText "CODE REVIEWS:" (writeReview "") (filter (hasType "review") activities).
Proof.
  intros Hne. unfold formatActivitiesForLLM.
  destruct activities as [|a l]; [contradiction |].
  cbn [length Nat.eqb]. cbv zeta.
  rewrite classify_filter. cbn [commits prs issues reviews emptyBuckets app].
  rewrite (writeSection_text _ _ _ _ _ writeReview_append).
  rewrite (writeSection_text _ _ _ _ _ writeWithBody_append).
  rewrite (writeSection_text _ _ _ _ _ writeWithBody_append).
  rewrite (writeSection_text _ _ _ _ _ writeCommit_append).
  now rewrite !append_assoc.
Qed.

Lemma sectionText_shape header entry xs :
  sectionText header entry xs = ""
  \/ exists rest, sectionText header entry xs = header ++ nl ++ rest.
Proof.
  destruct xs as [|x xs]; [now left | right].
  now exists (String.concat "" (map entry (x :: xs)) ++ nl).
Qed.

(** C7: the block of an empty list is exactly the sentence "No GitHub
    activity found for the specified period.", which holds none of the four
    section headers; and no list with a record in it is formatted to that
    sentence. *)
Theorem format_empty_list_only :
  formatActivitiesForLLM [] = "No GitHub activity found for the specified period."
  /\ (forall header, In header sectionHeaders ->
        Contains (formatActivitiesForLLM []) header = false)
  /\ (forall activities,
        formatActivitiesForLLM activities = noActivity <-> activities = []).
Proof.
  split; [reflexivity | split].
  - intros header Hin. simpl in Hin.
    repeat (destruct Hin as [<- | Hin]; [vm_compute; reflexivity |]).
    contradiction.
  - intros activities. split; [| intros ->; reflexivity].
    destruct activities as [|a l]; [reflexivity |].
    intros H. exfalso. rewrite format_sections in H by discriminate.
    destruct (sectionText_shape "COMMITS:" commitEntry
                (filter (hasType "commit") (a :: l))) as [E | [r E]];
      rewrite E in H; clear E; [| discriminate H].
    destruct (sectionText_shape "PULL REQUESTS:" bodyEntry
                (filter (hasType "pull_request") (a :: l))) as [E | [r E]];
      rewrite E in H; clear E; [| discriminate H].
    destruct (sectionText_shape "ISSUES:" bodyEntry
                (filter (hasType "issue") (a :: l))) as [E | [r E]];
      rewrite E in H; clear E; [| discriminate H].
    destruct (sectionText_shape "CODE REVIEWS:" (writeReview "")
                (filter (hasType "review") (a :: l))) as [E | [r E]];
      rewrite E in H; discriminate H.
Qed.

Lemma shortBody_test (a : types.GitHubActivity) :
  negb (String.eqb (types.Description a) "") && (len (types.Description a) <? 200)%Z = true
  <-> shortBody a.
Proof.
  unfold shortBody. rewrite andb_true_iff, negb_true_iff, String.eqb_neq, Z.ltb_lt.
  reflexivity.
Qed.

Lemma descriptionLine_not_empty (text : string) : descriptionLine text <> "".
Proof. discriminate. Qed.

(** C6, as the code has it: for a pull request or an issue, the loop
    writes the item line and then the line
    "  Description: <trimmed description>" if and only if the description
    is not empty and shorter than 200 bytes ([len] counts bytes, not
    characters); so a body of 250 bytes gets no description line and a
    body of 50 bytes gets one.  The block of one such record is its
    header, this text and a blank line. *)
Theorem body_description_line (a : types.GitHubActivity) (builder : string) :
  let described :=
    builder ++ itemLine a ++ descriptionLine (TrimSpace (types.Description a)) in
  (writeWithBody builder a = described <-> shortBody a)
  /\ (~ shortBody a -> writeWithBody builder a = builder ++ itemLine a)
  /\ (len (types.Description a) = 250%Z -> writeWithBody builder a = builder ++ itemLine a)
  /\ (len (types.Description a) = 50%Z -> writeWithBody builder a = described)
  /\ (types.Type_ a = "pull_request" ->
        formatActivitiesForLLM [a] = "PULL REQUESTS:" ++ nl ++ writeWithBody "" a ++ nl)
  /\ (types.Type_ a = "issue" ->
        formatActivitiesForLLM [a] = "ISSUES:" ++ nl ++ writeWithBody "" a ++ nl).
Proof.
  intros described; subst described.
  assert (Hyes : shortBody a -> writeWithBody builder a
            = builder ++ itemLine a ++ descriptionLine (TrimSpace (types.Description a))).
  { intros H. apply shortBody_test in H. unfold writeWithBody; cbv zeta.
    rewrite H. apply append_assoc. }
  assert (Hno : ~ shortBody a -> writeWithBody builder a = builder ++ itemLine a).
  { intros H. unfold writeWithBody; cbv zeta.
    destruct (_ && _) eqn:E; [| reflexivity].
    apply shortBody_test in E. contradiction. }
  split; [split | split; [| split; [| split; [| split]]]].
  - intros H.
    destruct (negb (String.eqb (types.Description a) "")
              && (len (types.Description a) <? 200)%Z) eqn:E;
      [now apply shortBody_test |].
    exfalso. rewrite Hno in H.
    + apply append_inj_l, append_self_nil in H.
      now apply descriptionLine_not_empty in H.
    + intros Hs. apply shortBody_test in Hs. congruence.
  - exact Hyes.
  - exact Hno.
  - intros H. apply Hno. unfold shortBody. lia.
  - intros H. apply Hyes. unfold shortBody. split; [| lia].
    intros E. rewrite E in H. discriminate H.
  - intros H. unfold formatActivitiesForLLM, writeSection, classify.
    simpl. rewrite H. simpl. rewrite (writeWithBody_append (String _ _)). reflexivity.
  - intros H. unfold formatActivitiesForLLM, writeSection, classify.
    simpl. rewrite H. simpl. rewrite (writeWithBody_append (String _ _)). reflexivity.
Qed.

(** The witness of [body_description_line]: a pull request with a body of
    50 bytes and one with a body of 250 bytes. *)
Lemma body_description_line_witness :
  formatActivitiesForLLM
    [activity "pull_request" "octo/demo" "PR #7: Add cache" (bytes 50 "x")]
  = "PULL REQUESTS:" ++ nl ++ "- [octo/demo] PR #7: Add cache" ++ nl
      ++ "  Description: " ++ bytes 50 "x" ++ nl ++ nl
  /\ formatActivitiesForLLM
       [activity "pull_request" "octo/demo" "PR #7: Add cache" (bytes 250 "x")]
     = "PULL REQUESTS:" ++ nl ++ "- [octo/demo] PR #7: Add cache" ++ nl ++ nl.
Proof.
  split.
  - destruct (body_description_line
                (activity "pull_request" "octo/demo" "PR #7: Add cache" (bytes 50 "x")) "")
      as (_ & _ & _ & Hline & Hpr & _).
    rewrite (Hpr eq_refl), (Hline eq_refl). reflexivity.
  - destruct (body_description_line
                (activity "pull_request" "octo/demo" "PR #7: Add cache" (bytes 250 "x")) "")
      as (_ & _ & Hnone & _ & Hpr & _).
    rewrite (Hpr eq_refl), (Hnone eq_refl). reflexivity.
Defined.

(** C6 as stated, with lengths in characters, does not hold: a pull
    request whose body is 50 characters of four bytes each has a body of
    200 bytes, and no description line is written for it. *)
Lemma wide_body_gets_no_line :
  runeCount wideBody = 50%nat
  /\ len wideBody = 200%Z
  /\ formatActivitiesForLLM
       [activity "pull_request" "octo/demo" "PR #7: Add cache" wideBody]
     = "PULL REQUESTS:" ++ nl ++ "- [octo/demo] PR #7: Add cache" ++ nl ++ nl
  /\ ~ (writeWithBody "" (activity "pull_request" "octo/demo" "PR #7: Add cache" wideBody)
        = itemLine (activity "pull_request" "octo/demo" "PR #7: Add cache" wideBody)
            ++ descriptionLine (TrimSpace wideBody)
        <-> wideBody <> "" /\ (runeCount wideBody < 200)%nat).
Proof.
  split; [vm_compute; reflexivity |].
  split; [vm_compute; reflexivity |].
  split; [vm_compute; reflexivity |].
  intros [_ Hline].
  assert (Hshort : wideBody <> "" /\ (runeCount wideBody < 200)%nat).
  { split; [intros E; vm_compute in E; discriminate E |].
    apply Nat.ltb_lt. vm_compute. reflexivity. }
  specialize (Hline Hshort). vm_compute in Hline. discriminate Hline.
Qed.

(** *** Commits: the second line of the message *)

Lemma string_of_list_ascii_app (l1 l2 : list ascii) :
  string_of_list_ascii (l1 ++ l2)
  = string_of_list_ascii l1 ++ string_of_list_ascii l2.
Proof. induction l1 as [|c l1 IH]; simpl; [reflexivity | now rewrite IH]. Qed.

Lemma singleLine_cons (c : ascii) (s : string) :
  singleLine (String c s) = true ->
  Ascii.eqb (ascii_of_nat 10) c = false /\ singleLine s = true.
Proof.
  unfold singleLine, nl. cbn [Contains HasPrefix]. rewrite andb_true_r.
  destruct (Ascii.eqb _ c); cbn [orb negb]; [discriminate | now split].
Qed.

(** A piece with no line feed is read up to the next line feed. *)
Lemma splitFrom_line (line rest : string) (cur : list ascii) :
  singleLine line = true ->
  splitFrom nl 0 cur (line ++ nl ++ rest)
  = (string_of_list_ascii (rev cur) ++ line) :: splitFrom nl 0 [] rest.
Proof.
  revert cur; induction line as [|c line IH]; intros cur Hline.
  - simpl. now rewrite append_nil_r.
  - apply singleLine_cons in Hline as [Hc Hline].
    cbn [append splitFrom]. unfold nl at 2. cbn [HasPrefix]. rewrite Hc. cbn [andb].
    rewrite IH by assumption. cbn [rev string_of_list_ascii].
    now rewrite string_of_list_ascii_app, append_assoc.
Qed.

(** The last piece. *)
Lemma splitFrom_last (line : string) (cur : list ascii) :
  singleLine line = true ->
  splitFrom nl 0 cur line = [string_of_list_ascii (rev cur) ++ line].
Proof.
  revert cur; induction line as [|c line IH]; intros cur Hline.
  - simpl. now rewrite append_nil_r.
  - apply singleLine_cons in Hline as [Hc Hline].
    cbn [splitFrom]. unfold nl at 1. cbn [HasPrefix]. rewrite Hc. cbn [andb].
    rewrite IH by assumption. cbn [rev string_of_list_ascii].
    now rewrite string_of_list_ascii_app, append_assoc.
Qed.

(** The first two pieces of a message of at least two lines. *)
Lemma Split_two_lines (subject second tail : string) :
  singleLine subject = true -> singleLine second = true ->
  (tail = "" \/ exists t, tail = nl ++ t) ->
  exists more, Split (subject ++ nl ++ second ++ tail) nl = subject :: second :: more.
Proof.
  intros Hsubject Hsecond [-> | [t ->]]; unfold Split.
  - rewrite splitFrom_line by assumption. rewrite append_nil_r.
    rewrite splitFrom_last by assumption. now exists [].
  - rewrite splitFrom_line by assumption.
    rewrite splitFrom_line by assumption. now eexists.
Qed.

Lemma append_not_self (s t : string) : t <> "" -> s ++ t <> s.
Proof.
  intros Ht H. apply Ht, (append_self_nil s). now symmetry.
Qed.

(** The block of a single commit. *)
Lemma format_single_commit (a : types.GitHubActivity) :
  types.Type_ a = "commit" ->
  formatActivitiesForLLM [a] = "COMMITS:" ++ nl ++ commitEntry a ++ nl.
Proof.
  intros H. rewrite format_sections by discriminate.
  unfold hasType. cbn [filter]. rewrite H. cbn [String.eqb Ascii.eqb Bool.eqb].
  cbn [sectionText map String.concat]. now rewrite !append_nil_r.
Qed.

(** C3, as the code has it: the record made of a commit whose message
    starts with the lines [subject] and [second] has the title [subject]
    and the whole message as description, and its block is the header,
    the item line, the line "  Description: <second, trimmed>" only when
    [second] is not empty, and a blank line.  For the message
    "Fix bug\n\nDetails here" the second line is empty: no description
    line is written. *)
Theorem commit_description_line (item : github.Item) (subject second tail : string) :
  singleLine subject = true -> singleLine second = true ->
  (tail = "" \/ exists t, tail = nl ++ t) ->
  github.commit_message item = subject ++ nl ++ second ++ tail ->
  let a := github.commitRecord item in
  types.Title a = subject
  /\ types.Description a = github.commit_message item
  /\ formatActivitiesForLLM [a]
     = "COMMITS:" ++ nl
         ++ ("- [" ++ github.repository_full_name item ++ "] " ++ subject ++ nl)
         ++ (if String.eqb second "" then ""
             else "  Description: " ++ TrimSpace second ++ nl)
         ++ nl.
Proof.
  intros Hsubject Hsecond Htail Hmessage a.
  destruct (Split_two_lines subject second tail Hsubject Hsecond Htail) as [more Hsplit].
  assert (Htitle : types.Title a = subject).
  { subst a. unfold github.commitRecord. cbn [types.Title].
    now rewrite Hmessage, Hsplit. }
  split; [exact Htitle | split; [reflexivity |]].
  rewrite format_single_commit by reflexivity.
  do 2 f_equal. rewrite <- append_assoc. f_equal.
  unfold commitEntry, writeCommit, itemLine. cbv zeta. rewrite Htitle.
  change (types.Description a) with (github.commit_message item).
  change (types.Repository a) with (github.repository_full_name item).
  assert (Hdiff : String.eqb (subject ++ nl ++ second ++ tail) subject = false).
  { apply String.eqb_neq, append_not_self. discriminate. }
  rewrite Hmessage, Hdiff, Hsplit. cbn [negb length nth Nat.ltb Nat.leb andb].
  destruct (String.eqb second ""); cbn [negb].
  - now rewrite append_nil_r.
  - reflexivity.
Qed.

(** The witness of [commit_description_line]: the message of the claim,
    and the same message without its empty line. *)
Lemma commit_description_line_witness :
  formatActivitiesForLLM
    [github.commitRecord
       (commitItem "octo/demo" ("Fix bug" ++ nl ++ nl ++ "Details here"))]
  = "COMMITS:" ++ nl ++ "- [octo/demo] Fix bug" ++ nl ++ nl
  /\ formatActivitiesForLLM
       [github.commitRecord (commitItem "octo/demo" ("Fix bug" ++ nl ++ "Details here"))]
     = "COMMITS:" ++ nl ++ "- [octo/demo] Fix bug" ++ nl
         ++ "  Description: Details here" ++ nl ++ nl.
Proof.
  split.
  - destruct (commit_description_line
                (commitItem "octo/demo" ("Fix bug" ++ nl ++ nl ++ "Details here"))
                "Fix bug" "" (nl ++ "Details here")
                eq_refl eq_refl (or_intror (ex_intro _ "Details here" eq_refl)) eq_refl)
      as (_ & _ & Hblock).
    rewrite Hblock. reflexivity.
  - destruct (commit_description_line
                (commitItem "octo/demo" ("Fix bug" ++ nl ++ "Details here"))
                "Fix bug" "Details here" "" eq_refl eq_refl (or_introl eq_refl) eq_refl)
      as (_ & _ & Hblock).
    rewrite Hblock. reflexivity.
Defined.

(** C3 as stated does not hold: the record of the message
    "Fix bug\n\nDetails here" has the title "Fix bug", and its block is
    the header and the item line; "Details here" is nowhere in it. *)
Lemma commit_body_line_missing :
  formatActivitiesForLLM
    [github.commitRecord
       (commitItem "octo/demo" ("Fix bug" ++ nl ++ nl ++ "Details here"))]
  = "COMMITS:" ++ nl ++ "- [octo/demo] Fix bug" ++ nl ++ nl
  /\ ~ (types.Title
          (github.commitRecord
             (commitItem "octo/demo" ("Fix bug" ++ nl ++ nl ++ "Details here")))
        = "Fix bug"
        /\ Contains
             (formatActivitiesForLLM
                [github.commitRecord
                   (commitItem "octo/demo" ("Fix bug" ++ nl ++ nl ++ "Details here"))])
             "Details here" = true).
Proof.
  split; [reflexivity |].
  intros [_ H]. vm_compute in H. discriminate H.
Qed.

(** *** Records of an unknown type *)

Lemma countSwitch_total counts a :
  total (main.countSwitch counts a)
  = (total counts + (if knownType (types.Type_ a) then 1 else 0))%Z.
Proof.
  destruct counts as [[[c p] i] r]. unfold main.countSwitch, knownType, total. cbv zeta.
  destruct (String.eqb (types.Type_ a) "commit"); simpl; [lia |].
  destruct (String.eqb (types.Type_ a) "pull_request"); simpl; [lia |].
  destruct (String.eqb (types.Type_ a) "issue"); simpl; [lia |].
  destruct (String.eqb (types.Type_ a) "review"); simpl; lia.
Qed.

Lemma countSwitch_unknown counts a :
  knownType (types.Type_ a) = false -> main.countSwitch counts a = counts.
Proof.
  destruct counts as [[[c p] i] r]. unfold main.countSwitch, knownType. cbv zeta.
  intros H.
  apply orb_false_elim in H as [H H4].
  apply orb_false_elim in H as [H H3].
  apply orb_false_elim in H as [H1 H2].
  now rewrite H1, H2, H3, H4.
Qed.

(** The four counts add up to the number of records of a known type. *)
Lemma count_total activities counts :
  total (fold_left main.countSwitch activities counts)
  = (total counts
     + Z.of_nat (length (filter (fun a => knownType (types.Type_ a)) activities)))%Z.
Proof.
  revert counts; induction activities as [|a l IH]; intros counts; simpl; [lia |].
  rewrite IH, countSwitch_total.
  destruct (knownType (types.Type_ a)); simpl length; lia.
Qed.

Lemma filter_length_le {A} (f : A -> bool) (l : list A) :
  (length (filter f l) <= length l)%nat.
Proof.
  induction l as [|x l IH]; simpl; [lia |]. destruct (f x); simpl; lia.
Qed.

Lemma filter_length_lt {A} (f : A -> bool) (l1 l2 : list A) (x : A) :
  f x = false -> (length (filter f (l1 ++ x :: l2)) < length (l1 ++ x :: l2))%nat.
Proof.
  intros H. rewrite filter_app, !length_app. simpl. rewrite H.
  pose proof (filter_length_le f l1). pose proof (filter_length_le f l2).
  simpl. lia.
Qed.

(** C10: a record whose type is none of "commit", "pull_request", "issue"
    and "review" is dropped without a trace: the block is the one of the
    list without it (and is empty when it stood alone with other such
    records), the four counts are those of the list without it, and so
    the counts of a list that holds such a record add up to less than
    its length. *)
Theorem unknown_type_dropped (l1 l2 : list types.GitHubActivity)
    (a : types.GitHubActivity) :
  knownType (types.Type_ a) = false ->
  ((l1 ++ l2)%list <> [] ->
     formatActivitiesForLLM (l1 ++ a :: l2) = formatActivitiesForLLM (l1 ++ l2))
  /\ ((l1 ++ l2)%list = [] -> formatActivitiesForLLM (l1 ++ a :: l2) = "")
  /\ main.countActivities (l1 ++ a :: l2) = main.countActivities (l1 ++ l2)
  /\ (total (main.countActivities (l1 ++ a :: l2))
      < Z.of_nat (length (l1 ++ a :: l2)))%Z.
Proof.
  intros Hunknown. split; [| split; [| split]].
  - intros Hne. unfold formatActivitiesForLLM.
    rewrite (classify_skip l1 a l2 Hunknown).
    destruct (l1 ++ l2)%list as [|x l] eqn:E; [contradiction |].
    destruct (l1 ++ a :: l2)%list as [|y l'] eqn:E'; [| reflexivity].
    now destruct l1.
  - intros Hnil. apply app_eq_nil in Hnil as [-> ->].
    unfold formatActivitiesForLLM. simpl.
    now rewrite (classify_unknown a emptyBuckets Hunknown).
  - unfold main.countActivities. rewrite !fold_left_app. simpl.
    now rewrite countSwitch_unknown.
  - unfold main.countActivities. rewrite count_total.
    pose proof (filter_length_lt (fun x => knownType (types.Type_ x)) l1 l2 a Hunknown).
    unfold total. lia.
Qed.

(** The witness of [unknown_type_dropped]: a record of type "discussion"
    between a commit and an issue. *)
Lemma unknown_type_dropped_witness :
  formatActivitiesForLLM
    [activity "commit" "octo/demo" "Fix bug" "Fix bug";
     activity "discussion" "octo/demo" "Ideas" "Ideas";
     activity "issue" "octo/demo" "Issue #3: Crash" ""]
  = "COMMITS:" ++ nl ++ "- [octo/demo] Fix bug" ++ nl ++ nl
      ++ "ISSUES:" ++ nl ++ "- [octo/demo] Issue #3: Crash" ++ nl ++ nl
  /\ main.countActivities
       [activity "commit" "octo/demo" "Fix bug" "Fix bug";
        activity "discussion" "octo/demo" "Ideas" "Ideas";
        activity "issue" "octo/demo" "Issue #3: Crash" ""]
     = (1, 0, 1, 0)%Z.
Proof.
  destruct (unknown_type_dropped
              [activity "commit" "octo/demo" "Fix bug" "Fix bug"]
              [activity "issue" "octo/demo" "Issue #3: Crash" ""]
              (activity "discussion" "octo/demo" "Ideas" "Ideas") eq_refl)
    as (Hformat & _ & Hcount & _).
  split.
  - change (formatActivitiesForLLM
              ([activity "commit" "octo/demo" "Fix bug" "Fix bug"]
                 ++ activity "discussion" "octo/demo" "Ideas" "Ideas"
                 :: [activity "issue" "octo/demo" "Issue #3: Crash" ""]) = 
            "COMMITS:" ++ nl ++ "- [octo/demo] Fix bug" ++ nl ++ nl
              ++ "ISSUES:" ++ nl ++ "- [octo/demo] Issue #3: Crash" ++ nl ++ nl).
    rewrite Hformat by discriminate. reflexivity.
  - change (main.countActivities
              ([activity "commit" "octo/demo" "Fix bug" "Fix bug"]
                 ++ activity "discussion" "octo/demo" "Ideas" "Ideas"
                 :: [activity "issue" "octo/demo" "Issue #3: Crash" ""]) = (1, 0, 1, 0)%Z).
    rewrite Hcount. reflexivity.
Defined.

End Formatting.

(** ** Temperature resolution and the report *)

Section Report.

Import llm.

Lemma ascii_of_code (c : ascii) (n : nat) : nat_of_ascii c = n -> c = ascii_of_nat n.
Proof. intros <-. symmetry. apply ascii_nat_embedding. Qed.

(** Two bytes that are equal up to case have the same lower case, and
    the first one is in ASCII when the second one is. *)
Lemma foldByte_lower (c d : ascii) :
  foldByte c d = true ->
  lowerByte c = lowerByte d
  /\ ((nat_of_ascii d <? 128)%nat = true -> (nat_of_ascii c <? 128)%nat = true).
Proof.
  unfold foldByte, lowerByte, isUpper. cbv zeta. intros H.
  apply orb_true_iff in H as [H | H]; [apply orb_true_iff in H as [H | H] |].
  - apply Nat.eqb_eq in H. rewrite H. split; [| tauto].
    rewrite (ascii_of_code c _ H), ascii_nat_embedding. reflexivity.
  - apply andb_true_iff in H as [H Hsum]. apply andb_true_iff in H as [Hlow Hhigh].
    apply Nat.eqb_eq in Hsum. apply Nat.leb_le in Hlow, Hhigh.
    rewrite (proj2 (Nat.leb_le _ _) Hlow), (proj2 (Nat.leb_le _ _) Hhigh). cbn [andb].
    assert (Hnot : ((65 <=? nat_of_ascii d)%nat && (nat_of_ascii d <=? 90)%nat) = false).
    { apply andb_false_iff. right. apply Nat.leb_gt. lia. }
    rewrite Hnot. split.
    + rewrite <- Hsum. symmetry. now apply ascii_of_code.
    + intros _. apply Nat.ltb_lt. lia.
  - apply andb_true_iff in H as [H Hsum]. apply andb_true_iff in H as [Hlow Hhigh].
    apply Nat.eqb_eq in Hsum. apply Nat.leb_le in Hlow, Hhigh.
    rewrite (proj2 (Nat.leb_le _ _) Hlow), (proj2 (Nat.leb_le _ _) Hhigh). cbn [andb].
    assert (Hnot : ((65 <=? nat_of_ascii c)%nat && (nat_of_ascii c <=? 90)%nat) = false).
    { apply andb_false_iff. right. apply Nat.leb_gt. lia. }
    rewrite Hnot. split.
    + rewrite <- Hsum. now apply ascii_of_code.
    + intros _. apply Nat.ltb_lt. lia.
Qed.

(** Strings that are equal up to the case of their ASCII letters have
    the same lower case, and the first one is in ASCII when the second
    one is. *)
Lemma EqualFold_lower (s t : string) :
  EqualFold s t = true ->
  lowerASCII s = lowerASCII t /\ (isASCII t = true -> isASCII s = true).
Proof.
  revert t; induction s as [|c s IH]; intros [|d t] H; try discriminate H.
  - split; [reflexivity | tauto].
  - cbn [EqualFold] in H. apply andb_true_iff in H as [Hc Hs].
    destruct (foldByte_lower c d Hc) as [Hlower Hascii].
    destruct (IH t Hs) as [Hrest Hasciis].
    cbn [lowerASCII isASCII]. rewrite Hlower, Hrest. split; [reflexivity |].
    intros Ht. apply andb_true_iff in Ht as [Hd Ht].
    now rewrite (Hascii Hd), (Hasciis Ht).
Qed.

Lemma mapLookup_In (m : list (string * float)) (key : string) (v : float) :
  mapLookup m key = Some v -> In (key, v) m.
Proof.
  induction m as [|[k v'] m IH]; cbn [mapLookup]; [discriminate |].
  destruct (String.eqb_spec k key) as [-> | _].
  - intros [= ->]. now left.
  - intros H. right. now apply IH.
Qed.

(** The keys of the table are ASCII strings in lower case, and each has
    the value 1.0. *)
Lemma modelTemperatureMap_entries (key : string) (v : float) :
  In (key, v) modelTemperatureMap ->
  isASCII key = true /\ lowerASCII key = key /\ key <> ""
  /\ mapLookup modelTemperatureMap key = Some v /\ v = 1%float.
Proof.
  intros [[= <- <-] | [[= <- <-] | []]]; repeat split; discriminate.
Qed.

(** The table is read at the lower case of the model. *)
Lemma getMappedTemperature_lower (rt : Runtime) (model key : string) (v : float) :
  In (key, v) modelTemperatureMap ->
  ToLower (unicode_ToLower rt) model = key ->
  getMappedTemperature rt model = (v, true).
Proof.
  intros Hin Hlower.
  destruct (modelTemperatureMap_entries key v Hin) as (_ & _ & Hne & Hlookup & _).
  unfold getMappedTemperature.
  destruct (String.eqb_spec model "") as [-> | _].
  - cbn in Hlower. congruence.
  - now rewrite Hlower, Hlookup.
Qed.

(** A model that is a key up to the case of its ASCII letters is an
    ASCII string, and its lower case is the key. *)
Lemma ToLower_fold (mapUnicode : string -> string) (model key : string) (v : float) :
  In (key, v) modelTemperatureMap -> EqualFold model key = true ->
  ToLower mapUnicode model = key.
Proof.
  intros Hin Hfold.
  destruct (modelTemperatureMap_entries key v Hin) as (Hascii & Hlower & _).
  destruct (EqualFold_lower model key Hfold) as [Hsame Hmodel].
  unfold ToLower. rewrite (Hmodel Hascii), Hsame. exact Hlower.
Qed.

Lemma getMappedTemperature_miss (rt : Runtime) (model : string) :
  (forall key v, In (key, v) modelTemperatureMap ->
                 ToLower (unicode_ToLower rt) model <> key) ->
  getMappedTemperature rt model = (0%float, false).
Proof.
  intros Hmiss. unfold getMappedTemperature.
  destruct (String.eqb model ""); [reflexivity |].
  destruct (mapLookup modelTemperatureMap (ToLower (unicode_ToLower rt) model))
    as [v|] eqn:E; [| reflexivity].
  apply mapLookup_In in E. now apply Hmiss in E.
Qed.

(** C5: the temperature of the request is the value of the table entry
    that is the lower case of the selected model, as [strings.ToLower]
    gives it, whatever the configured temperature.  A model that is an
    entry up to the case of its ASCII letters has that entry as its
    lower case, so every spelling of "openai/gpt-5" gets 1.0.  When the
    lower case of the selected model is no entry, the temperature is the
    configured one; top-p is the configured one in every case. *)
Theorem temperature_resolution (rt : Runtime) (activitySummary model : string)
    (promptMessages : option (list PromptMessage)) (promptConfig : PromptConfig) :
  let selected := selectModel model promptConfig in
  let request := assembleRequest rt activitySummary model promptMessages promptConfig in
  (forall key v, In (key, v) modelTemperatureMap ->
                 ToLower (unicode_ToLower rt) selected = key ->
                 req_Temperature request = v)
  /\ (forall key v, In (key, v) modelTemperatureMap -> EqualFold selected key = true ->
                    req_Temperature request = v)
  /\ (EqualFold selected "openai/gpt-5" = true -> req_Temperature request = 1%float)
  /\ ((forall key v, In (key, v) modelTemperatureMap ->
                     ToLower (unicode_ToLower rt) selected <> key) ->
      req_Temperature request = Temperature (modelParameters promptConfig))
  /\ req_TopP request = TopP (modelParameters promptConfig)
  /\ req_Model request = selected.
Proof.
  intros selected request.
  assert (Hlower : forall key v, In (key, v) modelTemperatureMap ->
                     ToLower (unicode_ToLower rt) selected = key ->
                     req_Temperature request = v).
  { intros key v Hin Hkey. subst request. unfold assembleRequest. cbv zeta.
    fold selected. cbn [req_Temperature].
    now rewrite (getMappedTemperature_lower rt selected key v Hin Hkey). }
  assert (Hfold : forall key v, In (key, v) modelTemperatureMap ->
                    EqualFold selected key = true -> req_Temperature request = v).
  { intros key v Hin Hkey. apply (Hlower key v Hin).
    now apply (ToLower_fold _ selected key v). }
  split; [exact Hlower | split; [exact Hfold | split; [| split; [| split; reflexivity]]]].
  - apply Hfold. cbn. tauto.
  - intros Hmiss. subst request. unfold assembleRequest. cbv zeta.
    fold selected. cbn [req_Temperature].
    now rewrite (getMappedTemperature_miss rt selected Hmiss).
Qed.

(** The witness of [temperature_resolution]: the configuration asks for
    0.5; the model "OpenAI/GPT-5" gets 1.0, and so does the model written
    with U+0130 for its "i", whose lower case is "openai/gpt-5"; the
    configured model "openai/gpt-4o" gets 0.5. *)
Lemma temperature_resolution_witness :
  req_Temperature
    (assembleRequest (exampleRuntime "") "" "OpenAI/GPT-5" None examplePrompt) = 1%float
  /\ req_Temperature
       (assembleRequest (exampleRuntime "") "" ("opena" ++ dottedI ++ "/gpt-5") None
          examplePrompt) = 1%float
  /\ req_Temperature (assembleRequest (exampleRuntime "") "" "" None examplePrompt)
     = 0.5%float.
Proof.
  split; [| split].
  - destruct (temperature_resolution (exampleRuntime "") "" "OpenAI/GPT-5" None
                examplePrompt) as (_ & _ & Hgpt5 & _).
    apply Hgpt5. reflexivity.
  - destruct (temperature_resolution (exampleRuntime "") ""
                ("opena" ++ dottedI ++ "/gpt-5") None examplePrompt) as (Hlower & _).
    apply (Hlower "openai/gpt-5"); [cbn; tauto | vm_compute; reflexivity].
  - destruct (temperature_resolution (exampleRuntime "") "" "" None examplePrompt)
      as (_ & _ & _ & Hconfig & _).
    rewrite Hconfig; [reflexivity |].
    intros key v [[= <- <-] | [[= <- <-] | []]]; vm_compute; discriminate.
Defined.

(** C8: when the configuration loads, the request is encoded, and the
    endpoint answers 200 with a body that decodes to [response]: an empty
    list of choices gives the error "no response generated from the
    model" and no report; otherwise the report is the content of the
    first choice with the white space at its two ends removed, so a
    single choice with the content "  Report text  \n" gives
    "Report text", and so does one whose content starts with the no-break
    space U+00A0 and ends with the em space U+2003. *)
Theorem report_from_first_choice (rt : Runtime) (c : Client)
    (activities : list types.GitHubActivity) (model : string)
    (promptMessages : option (list PromptMessage))
    (promptConfig : PromptConfig) (jsonData body : string) (response : Response) :
  yaml_Unmarshal rt = inr promptConfig ->
  json_Marshal rt (assembleRequest rt (formatActivitiesForLLM activities) model
                     promptMessages promptConfig) = inr jsonData ->
  http_Do rt ("Bearer " ++ token c) jsonData = Received 200 body ->
  json_Unmarshal rt body = inr response ->
  let report := GenerateStandupReport rt c activities model promptMessages in
  (Choices response = [] ->
     report = ("", Some (errorString "no response generated from the model")))
  /\ (forall first rest, Choices response = first :: rest ->
        report = (TrimSpace (Message_Content first), None))
  /\ (Choices response = [ {| Message_Content := "  Report text  " ++ nl |} ] ->
      report = ("Report text", None))
  /\ (Choices response
      = [ {| Message_Content := noBreakSpace ++ "Report text" ++ emSpace |} ] ->
      report = ("Report text", None)).
Proof.
  intros Hyaml Hmarshal Hdo Hdecode report.
  assert (Hreport : report =
            match Choices response with
            | [] => ("", Some (errorString "no response generated from the model"))
            | first :: _ => (TrimSpace (Message_Content first), None)
            end).
  { subst report. unfold GenerateStandupReport, loadPromptConfig, callGitHubModels.
    cbv zeta. rewrite Hyaml, Hmarshal, Hdo. cbn [Z.eqb Pos.eqb negb].
    now rewrite Hdecode. }
  split; [| split; [| split]].
  - intros H. now rewrite Hreport, H.
  - intros first rest H. now rewrite Hreport, H.
  - intros H. rewrite Hreport, H. vm_compute. reflexivity.
  - intros H. rewrite Hreport, H. vm_compute. reflexivity.
Qed.

(** The witness of [report_from_first_choice]: the endpoint answers one
    choice with the content "  Report text  \n", and one with the
    content "Report text" between U+00A0 and U+2003. *)
Lemma report_from_first_choice_witness :
  GenerateStandupReport (exampleRuntime ("  Report text  " ++ nl)) {| token := "ghp_token" |}
    [activity "commit" "octo/demo" "Fix bug" "Fix bug"] "" None
  = ("Report text", None)
  /\ GenerateStandupReport (exampleRuntime (noBreakSpace ++ "Report text" ++ emSpace))
       {| token := "ghp_token" |}
       [activity "commit" "octo/demo" "Fix bug" "Fix bug"] "" None
     = ("Report text", None).
Proof.
  split.
  - destruct (report_from_first_choice
                (exampleRuntime ("  Report text  " ++ nl)) {| token := "ghp_token" |}
                [activity "commit" "octo/demo" "Fix bug" "Fix bug"] "" None
                examplePrompt "{model: openai/gpt-4o}" "{choices: [...]}"
                {| Choices := [ {| Message_Content := "  Report text  " ++ nl |} ] |}
                eq_refl eq_refl eq_refl eq_refl) as (_ & _ & Hascii & _).
    exact (Hascii eq_refl).
  - destruct (report_from_first_choice
                (exampleRuntime (noBreakSpace ++ "Report text" ++ emSpace))
                {| token := "ghp_token" |}
                [activity "commit" "octo/demo" "Fix bug" "Fix bug"] "" None
                examplePrompt "{model: openai/gpt-4o}" "{choices: [...]}"
                {| Choices :=
                     [ {| Message_Content := noBreakSpace ++ "Report text" ++ emSpace |} ] |}
                eq_refl eq_refl eq_refl eq_refl) as (_ & _ & _ & Hunicode).
    exact (Hunicode eq_refl).
Defined.

End Report.

(** ** The pagination loop *)

Section Pagination.

Import github.

Variable c : Client.
Variable path : Z -> string.
Variable record : Item -> types.GitHubActivity.
Variable failure : error -> error.

(** The run ends with the request of [path page], whose reply is
    [Hreply]: the six parts of [searchLoop_run] for one request. *)
Ltac one_request Hreply :=
  cbn [fst snd map length]; rewrite ?app_nil_r;
  split; [reflexivity | split; [reflexivity | split; [lia | split; [| split]]]];
  [ intros [|k] p Hk; [| now destruct k];
    cbn [firstn]; rewrite app_nil_r; injection Hk as <-;
    rewrite Hreply; first [now split | reflexivity]
  | first [ intros _; reflexivity
          | intros Hall; destruct (Hall 0%nat _ eq_refl) as [Items' HItems];
            cbn [firstn] in HItems; rewrite app_nil_r in HItems; congruence ]
  | first [ intros _; cbn [length]; lia
          | intros Hsize; specialize (Hsize _ _ _ Hreply); cbn [length]; lia ] ].

(** What one run of the loop from [page] does: it requests at least one
    page and at most [pagesLeft page] more, appends records made of
    items, stops at the first reply that is an error or a page of fewer
    than 100 items, and returns an error only for a failed request. *)
Lemma searchLoop_run (n : nat) :
  forall (page : Z) (activities : list types.GitHubActivity) (w : World),
    pagesLeft page = n ->
    exists (requested : list string) (items : list Item),
      snd (searchLoop c path record failure page activities w) = (w ++ requested)%list
      /\ fst (fst (searchLoop c path record failure page activities w))
         = (activities ++ map record items)%list
      /\ (1 <= length requested <= S n)%nat
      /\ (forall k p, nth_error requested k = Some p ->
            match respond (client c) (w ++ firstn k requested) p with
            | inl err =>
                length requested = S k
                /\ snd (fst (searchLoop c path record failure page activities w))
                   = Some (failure err)
            | inr Items =>
                (length Items < 100)%nat -> length requested = S k
            end)
      /\ ((forall k p, nth_error requested k = Some p ->
             exists Items, respond (client c) (w ++ firstn k requested) p = inr Items)
          -> snd (fst (searchLoop c path record failure page activities w)) = None)
      /\ ((forall h p Items, respond (client c) h p = inr Items ->
                             (length Items <= 100)%nat)
          -> (length items <= 100 * length requested)%nat).
Proof.
  induction n as [|n IH]; intros page activities w Hleft;
    rewrite searchLoop_equation_1; unfold Get;
    destruct (respond (client c) w (path page)) as [err | Items] eqn:Hreply.
  1, 3: exists [path page], []; one_request Hreply.
  - (* page 10 or later: the loop ends whatever the reply *)
    assert (Hlast : (page + 1 > 10)%Z) by (unfold pagesLeft in Hleft; lia).
    exists [path page], (if (length Items =? 0)%nat then [] else Items).
    destruct (length Items =? 0)%nat eqn:Hempty;
      [| destruct (Z.of_nat (length Items) <? perPage)%Z eqn:Hshort;
         [| cbv zeta; destruct (Z_gt_dec (page + 1) 10) as [_ | Hno]; [| contradiction]]];
      one_request Hreply.
  - (* a page before page 10 *)
    destruct (length Items =? 0)%nat eqn:Hempty;
      [| destruct (Z.of_nat (length Items) <? perPage)%Z eqn:Hshort;
         [| cbv zeta; destruct (Z_gt_dec (page + 1) 10) as [Hyes | Hno]]].
    1, 2, 3: exists [path page], (if (length Items =? 0)%nat then [] else Items);
      rewrite Hempty; one_request Hreply.
    (* a full page: the loop goes on with the next one *)
    assert (Hnext : pagesLeft (page + 1) = n) by (unfold pagesLeft in *; lia).
    destruct (IH (page + 1)%Z (activities ++ map record Items)%list
                (w ++ [path page])%list Hnext)
      as (requested & items & Hw & Hacts & Hlen & Hstop & Hok & Hsize).
    exists (path page :: requested), (Items ++ items)%list.
    rewrite Hw, Hacts. cbn [length].
    split; [now rewrite <- app_assoc |].
    split; [now rewrite map_app, app_assoc |].
    split; [lia |].
    apply Nat.eqb_neq in Hempty. apply Z.ltb_ge in Hshort. unfold perPage in Hshort.
    split; [| split].
    + intros [|k] p Hk.
      * cbn [firstn]. rewrite app_nil_r. injection Hk as <-. rewrite Hreply. lia.
      * cbn [nth_error] in Hk. specialize (Hstop k p Hk).
        cbn [firstn]. rewrite <- app_assoc in Hstop. cbn [app] in Hstop.
        destruct (respond (client c) (w ++ path page :: firstn k requested) p).
        -- destruct Hstop as [Hstop Herr]. split; [lia | exact Herr].
        -- intros Hlt. specialize (Hstop Hlt). lia.
    + intros Hall. apply Hok. intros k p Hk.
      destruct (Hall (S k) p Hk) as [Items' HItems]. exists Items'.
      cbn [firstn] in HItems. now rewrite <- app_assoc.
    + intros Hbound. specialize (Hsize Hbound). specialize (Hbound _ _ _ Hreply).
      rewrite length_app. lia.
Qed.

End Pagination.

(** ** The collectors and the aggregator *)

Section Collectors.

Import github.

Lemma searchLoop_bounded (c : Client) (path : Z -> string)
    (record : Item -> types.GitHubActivity) (failure : error -> error) (w : World) :
  boundedPagination c w (searchLoop c path record failure 1 [] w).
Proof.
  destruct (searchLoop_run c path record failure 9 1%Z [] w eq_refl)
    as (requested & items & Hw & Hacts & Hlen & Hstop & _ & Hsize).
  exists requested. split; [exact Hw | split; [lia | split]].
  - intros k p Items Hk Hreply Hshort.
    specialize (Hstop k p Hk). rewrite Hreply in Hstop. now apply Hstop.
  - intros Hbound. specialize (Hsize Hbound).
    rewrite Hacts. cbn [app]. rewrite length_map. lia.
Qed.

(** C2: each of the four collectors requests at least one and at most 10
    pages, stops right after the first page of fewer than 100 items (an
    empty page too), and so returns at most 1000 records when the server
    keeps to the 100 items per page that the request asks for. *)
Theorem pagination_bounded (c : Client) (username repo : string)
    (startDate endDate : time.Time) (w : World) :
  boundedPagination c w (getCommits c username repo startDate endDate w)
  /\ boundedPagination c w (getPullRequests c username repo startDate endDate w)
  /\ boundedPagination c w (getIssues c username repo startDate endDate w)
  /\ boundedPagination c w (getReviews c username startDate endDate w).
Proof.
  unfold getCommits, getPullRequests, getIssues, getReviews.
  repeat split; apply searchLoop_bounded.
Qed.

Lemma busyServer_page_size (h : list string) (p : string) (Items : list Item) :
  respond (client busyServer) h p = inr Items -> (length Items <= 100)%nat.
Proof.
  cbn [respond client busyServer].
  destruct (HasPrefix p "search/commits"); intros [= <-].
  - apply Nat.leb_le. vm_compute. reflexivity.
  - cbn [length]. lia.
Qed.

(** The witness of [pagination_bounded]: against full pages without end,
    [getCommits] stops after 10 requests with 1000 records. *)
Lemma pagination_bounded_witness :
  (length (fst (fst (getCommits busyServer "alice" "" monday tuesday []))) <= 1000)%nat
  /\ length (snd (getCommits busyServer "alice" "" monday tuesday [])) = 10%nat
  /\ length (fst (fst (getCommits busyServer "alice" "" monday tuesday []))) = 1000%nat.
Proof.
  split; [| split; vm_compute; reflexivity].
  destruct (pagination_bounded busyServer "alice" "" monday tuesday [])
    as ((requested & _ & _ & _ & Hsize) & _).
  apply Hsize, busyServer_page_size.
Defined.

(** A full page and then a short one: two requests, 140 records. *)
Example getCommits_short_page :
  let run := getCommits twoPages "alice" "" monday tuesday [] in
  (length (fst (fst run)), snd (fst run), length (snd run)) = (140%nat, None, 2%nat).
Proof. vm_compute. reflexivity. Qed.

(** Every record of a collector is made by its [record] function. *)
Lemma searchLoop_records (c : Client) (path : Z -> string)
    (record : Item -> types.GitHubActivity) (failure : error -> error) (w : World) :
  exists items, fst (fst (searchLoop c path record failure 1 [] w)) = map record items.
Proof.
  destruct (searchLoop_run c path record failure 9 1%Z [] w eq_refl)
    as (_ & items & _ & Hacts & _).
  now exists items.
Qed.

Lemma records_typed (record : Item -> types.GitHubActivity) (t : string)
    (items : list Item) :
  (forall item, types.Type_ (record item) = t) ->
  Forall (fun a => types.Type_ a = t) (map record items).
Proof.
  intros H. induction items as [|i l IH]; constructor; [apply H | exact IH].
Qed.

(** C1: whatever the commit collector returns, [CollectActivity] fails
    exactly when the pull request, issue or review collector fails: it
    then returns the error of that collector, wrapped, and stops with the
    requests made so far, so no later collector runs.  When the three
    succeed it returns no error; the commits are left out when their
    collector failed. *)
Theorem partial_failure_policy (c : Client) (username repo : string)
    (startDate endDate : time.Time) (w : World) :
  let commits := getCommits c username repo startDate endDate w in
  let prs := getPullRequests c username repo startDate endDate (snd commits) in
  let issues := getIssues c username repo startDate endDate (snd prs) in
  let reviews := getReviews c username startDate endDate (snd issues) in
  let kept :=
    match snd (fst commits) with
    | Some _ => []
    | None => fst (fst commits)
    end in
  let run := CollectActivity c username repo startDate endDate w in
  (forall err, snd (fst prs) = Some err ->
     run = (([], Some (Errorf_w "failed to get pull requests: " err)), snd prs))
  /\ (snd (fst prs) = None -> forall err, snd (fst issues) = Some err ->
      run = (([], Some (Errorf_w "failed to get issues: " err)), snd issues))
  /\ (snd (fst prs) = None -> snd (fst issues) = None ->
      forall err, snd (fst reviews) = Some err ->
      run = (([], Some (Errorf_w "failed to get reviews: " err)), snd reviews))
  /\ (snd (fst prs) = None -> snd (fst issues) = None -> snd (fst reviews) = None ->
      run = (((kept ++ fst (fst prs) ++ fst (fst issues) ++ fst (fst reviews))%list,
              None), snd reviews)).
Proof.
  intros commits prs issues reviews kept run.
  subst run kept reviews issues prs commits. unfold CollectActivity.
  destruct (getCommits c username repo startDate endDate w)
    as [[commits cerr] w1]. cbn [fst snd].
  destruct (getPullRequests c username repo startDate endDate w1)
    as [[prs perr] w2]. cbn [fst snd].
  destruct (getIssues c username repo startDate endDate w2)
    as [[issues ierr] w3]. cbn [fst snd].
  destruct (getReviews c username startDate endDate w3)
    as [[reviews rerr] w4]. cbn [fst snd].
  split; [| split; [| split]].
  - intros err ->. reflexivity.
  - intros -> err ->. reflexivity.
  - intros -> -> err ->. reflexivity.
  - intros -> -> ->. destruct cerr; cbn [app]; now rewrite <- ?app_assoc.
Qed.

(** The witness of [partial_failure_policy]: a failing commit search
    leaves the other three collectors' records, and a failing issue
    search ends the run before the review search. *)
Lemma partial_failure_policy_witness :
  (map types.Type_
       (fst (fst (CollectActivity flakyCommits "alice" "octo/demo" monday tuesday [])))
   = ["pull_request"; "issue"; "review"]
   /\ snd (fst (CollectActivity flakyCommits "alice" "octo/demo" monday tuesday [])) = None)
  /\ (fst (CollectActivity failingIssues "alice" "octo/demo" monday tuesday [])
      = ([], Some (Errorf_w "failed to get issues: " (errorString "HTTP 502: Bad Gateway")))
      /\ length (snd (CollectActivity failingIssues "alice" "octo/demo" monday tuesday []))
         = 3%nat).
Proof.
  split.
  - destruct (partial_failure_policy flakyCommits "alice" "octo/demo" monday tuesday [])
      as (_ & _ & _ & Hok).
    rewrite Hok by reflexivity. split; reflexivity.
  - destruct (partial_failure_policy failingIssues "alice" "octo/demo" monday tuesday [])
      as (_ & Hissues & _).
    rewrite (Hissues eq_refl (errorString "HTTP 502: Bad Gateway") eq_refl).
    split; reflexivity.
Defined.

(** The three collectors after [getCommits] return no commit. *)
Lemma later_collectors_no_commit (c : Client) (username repo : string)
    (startDate endDate : time.Time) (w : World) :
  Forall (fun a => types.Type_ a <> "commit")
    (fst (fst (getPullRequests c username repo startDate endDate w)))
  /\ Forall (fun a => types.Type_ a <> "commit")
       (fst (fst (getIssues c username repo startDate endDate w)))
  /\ Forall (fun a => types.Type_ a <> "commit")
       (fst (fst (getReviews c username startDate endDate w))).
Proof.
  unfold getPullRequests, getIssues, getReviews.
  split; [| split];
    match goal with
    | |- Forall _ (fst (fst (searchLoop ?c ?path ?record ?failure 1 [] ?w))) =>
        destruct (searchLoop_records c path record failure w) as [items ->]
    end.
  - eapply Forall_impl; [| apply (records_typed pullRequestRecord "pull_request")];
      [cbv beta; intros a ->; discriminate | reflexivity].
  - eapply Forall_impl; [| apply (records_typed issueRecord "issue")];
      [cbv beta; intros a ->; discriminate | reflexivity].
  - eapply Forall_impl; [| apply (records_typed reviewRecord "review")];
      [cbv beta; intros a ->; discriminate | reflexivity].
Qed.

(** C9: when [CollectActivity] returns an error it returns no record at
    all; and when the commit collector fails, none of the commits that it
    had read before the failing page is in the result. *)
Theorem collect_all_or_nothing (c : Client) (username repo : string)
    (startDate endDate : time.Time) (w : World) :
  let run := CollectActivity c username repo startDate endDate w in
  (snd (fst run) <> None -> fst (fst run) = [])
  /\ (snd (fst (getCommits c username repo startDate endDate w)) <> None ->
      Forall (fun a => types.Type_ a <> "commit") (fst (fst run))).
Proof.
  intros run; subst run. unfold CollectActivity.
  destruct (getCommits c username repo startDate endDate w) as [[commits cerr] w1].
  destruct (later_collectors_no_commit c username repo startDate endDate w1)
    as (Tprs & _ & _).
  destruct (getPullRequests c username repo startDate endDate w1) as [[prs perr] w2].
  destruct (later_collectors_no_commit c username repo startDate endDate w2)
    as (_ & Tissues & _).
  destruct (getIssues c username repo startDate endDate w2) as [[issues ierr] w3].
  destruct (later_collectors_no_commit c username repo startDate endDate w3)
    as (_ & _ & Treviews).
  destruct (getReviews c username startDate endDate w3) as [[reviews rerr] w4].
  cbn [fst snd] in *.
  destruct perr as [err|]; [split; [reflexivity | constructor] |].
  destruct ierr as [err|]; [split; [reflexivity | constructor] |].
  destruct rerr as [err|]; [split; [reflexivity | constructor] |].
  cbn [fst snd]. split; [congruence |].
  intros Hfailed. destruct cerr as [err|]; [| congruence].
  cbn [app]. now rewrite !Forall_app.
Qed.

(** The witness of [collect_all_or_nothing]: [getCommits] returns the 100
    commits of the first page together with the error of the second; the
    result of [CollectActivity] holds no commit. *)
Lemma collect_all_or_nothing_witness :
  length (fst (fst (getCommits flakyCommits "alice" "octo/demo" monday tuesday [])))
  = 100%nat
  /\ Forall (fun a => types.Type_ a <> "commit")
       (fst (fst (CollectActivity flakyCommits "alice" "octo/demo" monday tuesday [])))
  /\ fst (fst (CollectActivity failingIssues "alice" "octo/demo" monday tuesday [])) = [].
Proof.
  split; [vm_compute; reflexivity | split].
  - apply (collect_all_or_nothing flakyCommits "alice" "octo/demo" monday tuesday []).
    vm_compute. discriminate.
  - apply (collect_all_or_nothing failingIssues "alice" "octo/demo" monday tuesday []).
    vm_compute. discriminate.
Defined.

(** *** The repository filter *)

Lemma HasPrefix_append (s t : string) : HasPrefix (s ++ t) s = true.
Proof.
  induction s as [|ch s IH]; [reflexivity |].
  cbn [append HasPrefix]. now rewrite Ascii.eqb_refl, IH.
Qed.

Lemma Contains_prefix (s sub : string) : HasPrefix s sub = true -> Contains s sub = true.
Proof. intros H. destruct s; cbn [Contains]; now rewrite H. Qed.

Lemma Contains_append (s t : string) : Contains (s ++ t) t = true.
Proof.
  induction s as [|ch s IH].
  - apply Contains_prefix. cbn [append].
    pose proof (HasPrefix_append t "") as H. now rewrite append_nil_r in H.
  - cbn [append Contains]. rewrite IH. apply orb_true_r.
Qed.

(** [getCommits], [getPullRequests] and [getIssues] put the term
    [repo:<repo>] in their query when [repo] is not empty. *)
Lemma repo_term_in_query (username repo : string) (startDate endDate : time.Time) :
  repo <> "" ->
  Contains (commitsBaseQuery username repo startDate endDate) (" repo:" ++ repo) = true
  /\ Contains (createdBaseQuery username repo startDate endDate) (" repo:" ++ repo) = true.
Proof.
  intros Hrepo. apply String.eqb_neq in Hrepo.
  unfold commitsBaseQuery, createdBaseQuery, withRepo. rewrite Hrepo. cbn [negb].
  split; apply Contains_append.
Qed.

(** C4 fails on the review collector: with the filter "octo/demo",
    [CollectActivity] sends four requests to a server that finds nothing;
    the queries of the commit, pull request and issue collectors hold
    "repo:octo/demo", the query of the review collector holds no "repo:"
    term. *)
Theorem reviews_query_without_repo :
  map (fun p => Contains p "repo:octo/demo")
      (snd (CollectActivity quietServer "alice" "octo/demo" monday tuesday []))
  = [true; true; true; false]
  /\ nth 3 (snd (CollectActivity quietServer "alice" "octo/demo" monday tuesday [])) ""
     = issuesPath "pr" (escape (reviewsBaseQuery "alice" monday tuesday)) 1
  /\ issuesPath "pr" (escape (reviewsBaseQuery "alice" monday tuesday)) 1
     = "search/issues?q=reviewed-by:alice%20created:2024-05-13..2024-05-14+type:pr&per_page=100&page=1&sort=created&order=desc"
  /\ Contains (issuesPath "pr" (escape (reviewsBaseQuery "alice" monday tuesday)) 1) "repo:"
     = false.
Proof.
  split; [| split; [| split]]; vm_compute; reflexivity.
Qed.

End Collectors.

(** ** More on the collectors *)

Section Traces.

Import github.

Variable c : Client.
Variable path : Z -> string.
Variable record : Item -> types.GitHubActivity.
Variable failure : error -> error.

Lemma itemsOf_cons (reply : sum error (list Item)) (replies : list (sum error (list Item))) :
  itemsOf (reply :: replies)
  = (match reply with inl _ => [] | inr Items => Items end ++ itemsOf replies)%list.
Proof. reflexivity. Qed.

(** The requests of the loop are those of consecutive pages, and its
    records are made of the items of their replies. *)
Lemma searchLoop_trace (n : nat) :
  forall (page : Z) (activities : list types.GitHubActivity) (w : World),
    pagesLeft page = n ->
    exists k : nat,
      (1 <= k <= S n)%nat
      /\ snd (searchLoop c path record failure page activities w)
         = (w ++ map path (pageNumbers page k))%list
      /\ fst (fst (searchLoop c path record failure page activities w))
         = (activities
              ++ map record (itemsOf (repliesTo c w (map path (pageNumbers page k)))))%list.
Proof.
  induction n as [|n IH]; intros page activities w Hleft;
    rewrite searchLoop_equation_1; unfold Get;
    destruct (respond (client c) w (path page)) as [e | Items] eqn:Hreply.
  1, 3: exists 1%nat; cbn [pageNumbers map repliesTo fst snd];
    rewrite Hreply, itemsOf_cons; cbn [app map itemsOf concat];
    rewrite app_nil_r; repeat split; lia.
  - assert (Hlast : (page + 1 > 10)%Z) by (unfold pagesLeft in Hleft; lia).
    exists 1%nat. cbn [pageNumbers map repliesTo]. rewrite Hreply, itemsOf_cons.
    cbn [itemsOf map concat]. rewrite app_nil_r.
    destruct Items as [|i Items]; [cbn; rewrite app_nil_r; repeat split; lia |].
    cbn [length Nat.eqb].
    destruct (Z.of_nat (S (length Items)) <? perPage)%Z;
      [| cbv zeta; destruct (Z_gt_dec (page + 1) 10); [| contradiction]];
      cbn [fst snd]; repeat split; lia.
  - destruct Items as [|i Items];
      [exists 1%nat; cbn [pageNumbers map repliesTo]; rewrite Hreply; cbn;
       rewrite app_nil_r; repeat split; lia |].
    cbn [length Nat.eqb].
    destruct (Z.of_nat (S (length Items)) <? perPage)%Z;
      [| cbv zeta; destruct (Z_gt_dec (page + 1) 10) as [Hyes | Hno]].
    1, 2: exists 1%nat; cbn [pageNumbers map repliesTo]; rewrite Hreply, itemsOf_cons;
      cbn [itemsOf map concat fst snd]; rewrite app_nil_r; repeat split; lia.
    assert (Hnext : pagesLeft (page + 1) = n) by (unfold pagesLeft in *; lia).
    destruct (IH (page + 1)%Z (activities ++ map record (i :: Items))%list
                (w ++ [path page])%list Hnext) as (k & Hk & Hw & Hacts).
    exists (S k). rewrite Hw, Hacts.
    change (pageNumbers page (S k)) with (page :: pageNumbers (page + 1) k).
    change (map path (page :: pageNumbers (page + 1) k))
      with (path page :: map path (pageNumbers (page + 1) k)).
    cbn [repliesTo]. rewrite Hreply, itemsOf_cons.
    split; [lia | split].
    + now rewrite <- app_assoc.
    + now rewrite map_app, app_assoc.
Qed.

End Traces.

Section CollectorTraces.

Import github.

(** X1: every collector asks for the pages 1, 2, ... of its own search,
    in this order, up to page 10 at most: the k-th request of a run is
    the path of page k. *)
Theorem collectors_request_pages_in_order (c : Client) (username repo : string)
    (startDate endDate : time.Time) (w : World) :
  pagesInOrder (commitsPath (escape (commitsBaseQuery username repo startDate endDate)))
    w (getCommits c username repo startDate endDate w)
  /\ pagesInOrder (issuesPath "pr" (escape (createdBaseQuery username repo startDate endDate)))
       w (getPullRequests c username repo startDate endDate w)
  /\ pagesInOrder (issuesPath "issue" (escape (createdBaseQuery username repo startDate endDate)))
       w (getIssues c username repo startDate endDate w)
  /\ pagesInOrder (issuesPath "pr" (escape (reviewsBaseQuery username startDate endDate)))
       w (getReviews c username startDate endDate w).
Proof.
  unfold getCommits, getPullRequests, getIssues, getReviews, pagesInOrder.
  repeat split;
    match goal with
    | |- exists _, _ /\ snd (searchLoop ?c ?path ?record ?failure 1 [] ?w) = _ =>
        destruct (searchLoop_trace c path record failure 9 1%Z [] w eq_refl)
          as (k & Hk & Hw & _);
        exists k; split; [lia | exact Hw]
    end.
Qed.



Lemma searchLoop_fails_with_request (c : Client) (path : Z -> string)
    (record : Item -> types.GitHubActivity) (failure : error -> error) (w : World) :
  failsWithRequest c failure w (searchLoop c path record failure 1 [] w).
Proof.
  destruct (searchLoop_run c path record failure 9 1%Z [] w eq_refl)
    as (requested & items & Hw & _ & _ & Hstop & Hok & _).
  exists requested. split; [exact Hw | split; [| exact Hok]].
  intros k p e Hk Hreply. specialize (Hstop k p Hk). now rewrite Hreply in Hstop.
Qed.

(** X3: a collector returns an error exactly when one of its requests
    fails.  The failed request is the last one of the run (it is not
    sent again, and no page after it is asked for); [getCommits] returns
    the error of the request wrapped in its own message, the other three
    collectors return it as it is; and a run whose requests are all
    answered returns no error. *)
Theorem collectors_fail_with_request (c : Client) (username repo : string)
    (startDate endDate : time.Time) (w : World) :
  failsWithRequest c
    (Errorf_w "commits search failed (this is common due to GitHub API restrictions): ")
    w (getCommits c username repo startDate endDate w)
  /\ failsWithRequest c (fun e => e) w (getPullRequests c username repo startDate endDate w)
  /\ failsWithRequest c (fun e => e) w (getIssues c username repo startDate endDate w)
  /\ failsWithRequest c (fun e => e) w (getReviews c username startDate endDate w).
Proof.
  unfold getCommits, getPullRequests, getIssues, getReviews.
  split; [| split; [| split]]; apply searchLoop_fails_with_request.
Qed.

(** The four collectors' runs inside [CollectActivity], named. *)
Lemma CollectActivity_cases (c : Client) (username repo : string)
    (startDate endDate : time.Time) (w : World) :
  let commits := getCommits c username repo startDate endDate w in
  let prs := getPullRequests c username repo startDate endDate (snd commits) in
  let issues := getIssues c username repo startDate endDate (snd prs) in
  let reviews := getReviews c username startDate endDate (snd issues) in
  let kept :=
    match snd (fst commits) with
    | Some _ => []
    | None => fst (fst commits)
    end in
  let run := CollectActivity c username repo startDate endDate w in
  (snd (fst run) <> None /\ fst (fst run) = []
   /\ (snd run = snd prs \/ snd run = snd issues \/ snd run = snd reviews))
  \/ (snd (fst run) = None
      /\ fst (fst run)
         = (kept ++ fst (fst prs) ++ fst (fst issues) ++ fst (fst reviews))%list
      /\ snd run = snd reviews).
Proof.
  intros commits prs issues reviews kept run.
  subst run kept reviews issues prs commits. unfold CollectActivity.
  destruct (getCommits c username repo startDate endDate w) as [[commits cerr] w1].
  cbn [fst snd].
  destruct (getPullRequests c username repo startDate endDate w1) as [[prs perr] w2].
  cbn [fst snd].
  destruct (getIssues c username repo startDate endDate w2) as [[issues ierr] w3].
  cbn [fst snd].
  destruct (getReviews c username startDate endDate w3) as [[reviews rerr] w4].
  cbn [fst snd].
  destruct perr; [left; cbn; repeat split; [discriminate | tauto] |].
  destruct ierr; [left; cbn; repeat split; [discriminate | tauto] |].
  destruct rerr; [left; cbn; repeat split; [discriminate | tauto] |].
  right. cbn [fst snd]. repeat split.
  destruct cerr; cbn [app]; now rewrite <- ?app_assoc.
Qed.

(** X4: one run of [CollectActivity] sends at least 2 and at most 40
    requests, whatever the server answers, and at least 4 (one for each
    collector) when it returns no error. *)
Theorem CollectActivity_request_budget (c : Client) (username repo : string)
    (startDate endDate : time.Time) (w : World) :
  let run := CollectActivity c username repo startDate endDate w in
  exists requested : list string,
    snd run = (w ++ requested)%list
    /\ (2 <= length requested <= 40)%nat
    /\ (snd (fst run) = None -> (4 <= length requested)%nat).
Proof.
  intros run.
  pose proof (CollectActivity_cases c username repo startDate endDate w) as Hcases.
  cbv zeta in Hcases. fold run in Hcases.
  destruct (searchLoop_bounded c
              (commitsPath (escape (commitsBaseQuery username repo startDate endDate)))
              commitRecord
              (Errorf_w "commits search failed (this is common due to GitHub API restrictions): ")
              w) as (r1 & Hw1 & Hl1 & _).
  fold (getCommits c username repo startDate endDate w) in Hw1.
  set (commits := getCommits c username repo startDate endDate w) in *.
  destruct (searchLoop_bounded c
              (issuesPath "pr" (escape (createdBaseQuery username repo startDate endDate)))
              pullRequestRecord (fun e => e) (snd commits)) as (r2 & Hw2 & Hl2 & _).
  fold (getPullRequests c username repo startDate endDate (snd commits)) in Hw2.
  set (prs := getPullRequests c username repo startDate endDate (snd commits)) in *.
  destruct (searchLoop_bounded c
              (issuesPath "issue" (escape (createdBaseQuery username repo startDate endDate)))
              issueRecord (fun e => e) (snd prs)) as (r3 & Hw3 & Hl3 & _).
  fold (getIssues c username repo startDate endDate (snd prs)) in Hw3.
  set (issues := getIssues c username repo startDate endDate (snd prs)) in *.
  destruct (searchLoop_bounded c
              (issuesPath "pr" (escape (reviewsBaseQuery username startDate endDate)))
              reviewRecord (fun e => e) (snd issues)) as (r4 & Hw4 & Hl4 & _).
  fold (getReviews c username startDate endDate (snd issues)) in Hw4.
  set (reviews := getReviews c username startDate endDate (snd issues)) in *.
  rewrite Hw1 in Hw2. rewrite Hw2 in Hw3. rewrite Hw3 in Hw4.
  repeat rewrite <- app_assoc in Hw2.
  repeat rewrite <- app_assoc in Hw3.
  repeat rewrite <- app_assoc in Hw4.
  destruct Hcases as [(Herr & _ & [Hw | [Hw | Hw]]) | (Hok & _ & Hw)].
  - exists (r1 ++ r2)%list. rewrite Hw, Hw2, length_app.
    split; [reflexivity | split; [lia | congruence]].
  - exists (r1 ++ r2 ++ r3)%list. rewrite Hw, Hw3, !length_app.
    split; [reflexivity | split; [lia | congruence]].
  - exists (r1 ++ r2 ++ r3 ++ r4)%list. rewrite Hw, Hw4, !length_app.
    split; [reflexivity | split; lia].
  - exists (r1 ++ r2 ++ r3 ++ r4)%list. rewrite Hw, Hw4, !length_app.
    split; [reflexivity | split; lia].
Qed.

End CollectorTraces.

(** ** The counts and the aggregator *)

Section Counts.

Import github.

Lemma searchLoop_empty_page (c : Client) (path : Z -> string)
    (record : Item -> types.GitHubActivity) (failure : error -> error)
    (page : Z) (activities : list types.GitHubActivity) (w : World) :
  respond (client c) w (path page) = inr [] ->
  searchLoop c path record failure page activities w
  = ((activities, None), (w ++ [path page])%list).
Proof.
  intros Hreply. rewrite searchLoop_equation_1. unfold Get. now rewrite Hreply.
Qed.

(** X5: when every search finds nothing, [CollectActivity] returns the
    empty list and no error, after one request for the first page of
    each of the four searches, in the order commits, pull requests,
    issues, reviews. *)
Theorem no_activity_is_no_error (c : Client) (username repo : string)
    (startDate endDate : time.Time) (w : World) :
  (forall h p, respond (client c) h p = inr []) ->
  CollectActivity c username repo startDate endDate w
  = (([], None),
     (w ++ [ commitsPath (escape (commitsBaseQuery username repo startDate endDate)) 1;
             issuesPath "pr" (escape (createdBaseQuery username repo startDate endDate)) 1;
             issuesPath "issue" (escape (createdBaseQuery username repo startDate endDate)) 1;
             issuesPath "pr" (escape (reviewsBaseQuery username startDate endDate)) 1 ])%list).
Proof.
  intros Hquiet.
  unfold CollectActivity, getCommits, getPullRequests, getIssues, getReviews.
  rewrite !searchLoop_empty_page by apply Hquiet.
  cbn [app]. now rewrite <- !app_assoc.
Qed.

(** The witness of [no_activity_is_no_error]: the server that finds
    nothing. *)
Lemma no_activity_is_no_error_witness :
  fst (CollectActivity quietServer "alice" "" monday tuesday []) = ([], None)
  /\ length (snd (CollectActivity quietServer "alice" "" monday tuesday [])) = 4%nat.
Proof.
  rewrite (no_activity_is_no_error quietServer "alice" "" monday tuesday []
             (fun _ _ => eq_refl)).
  split; reflexivity.
Defined.

(** The counts after the loop, from the counts before it. *)
Lemma count_fold (activities : list types.GitHubActivity) :
  forall c0 p0 i0 r0 : Z,
    fold_left main.countSwitch activities (c0, p0, i0, r0)
    = (c0 + Z.of_nat (length (filter (hasType "commit") activities)),
       p0 + Z.of_nat (length (filter (hasType "pull_request") activities)),
       i0 + Z.of_nat (length (filter (hasType "issue") activities)),
       r0 + Z.of_nat (length (filter (hasType "review") activities)))%Z.
Proof.
  induction activities as [|a l IH]; intros c0 p0 i0 r0; cbn [fold_left filter length].
  - now rewrite !Z.add_0_r.
  - assert (Hswitch : main.countSwitch (c0, p0, i0, r0) a
              = if String.eqb (types.Type_ a) "commit" then (c0 + 1, p0, i0, r0)%Z
                else if String.eqb (types.Type_ a) "pull_request"
                     then (c0, p0 + 1, i0, r0)%Z
                     else if String.eqb (types.Type_ a) "issue"
                          then (c0, p0, i0 + 1, r0)%Z
                          else if String.eqb (types.Type_ a) "review"
                               then (c0, p0, i0, r0 + 1)%Z
                               else (c0, p0, i0, r0)) by reflexivity.
    assert (Htype : forall t, hasType t a = String.eqb (types.Type_ a) t) by reflexivity.
    rewrite Hswitch, !Htype. clear Hswitch Htype.
    destruct (String.eqb_spec (types.Type_ a) "commit") as [E1 | N1];
      destruct (String.eqb_spec (types.Type_ a) "pull_request") as [E2 | N2];
      destruct (String.eqb_spec (types.Type_ a) "issue") as [E3 | N3];
      destruct (String.eqb_spec (types.Type_ a) "review") as [E4 | N4];
      try (exfalso; congruence);
      rewrite IH; cbn [length];
      (apply f_equal2; [apply f_equal2; [apply f_equal2 |] |]); lia.
Qed.

(** X6: the four numbers of [countActivities] are the numbers of records
    of type "commit", "pull_request", "issue" and "review" in the list;
    none is negative, and their sum is the number of records of one of
    these types, never more than the length of the list. *)
Theorem counts_are_per_type (activities : list types.GitHubActivity) :
  main.countActivities activities
  = (Z.of_nat (length (filter (hasType "commit") activities)),
     Z.of_nat (length (filter (hasType "pull_request") activities)),
     Z.of_nat (length (filter (hasType "issue") activities)),
     Z.of_nat (length (filter (hasType "review") activities)))
  /\ total (main.countActivities activities)
     = Z.of_nat (length (filter (fun a => knownType (types.Type_ a)) activities))
  /\ (0 <= total (main.countActivities activities) <= Z.of_nat (length activities))%Z.
Proof.
  unfold main.countActivities.
  split; [now rewrite count_fold | split].
  - rewrite count_total. reflexivity.
  - rewrite count_total. cbn [total].
    pose proof (filter_length_le (fun a => knownType (types.Type_ a)) activities).
    lia.
Qed.

Lemma filter_same_type (t : string) (l : list types.GitHubActivity) :
  Forall (fun a => types.Type_ a = t) l -> filter (hasType t) l = l.
Proof.
  induction 1 as [|a l Ha _ IH]; [reflexivity |].
  cbn [filter]. unfold hasType at 1. rewrite Ha, String.eqb_refl. now rewrite IH.
Qed.

Lemma filter_other_type (t t' : string) (l : list types.GitHubActivity) :
  t <> t' -> Forall (fun a => types.Type_ a = t) l -> filter (hasType t') l = [].
Proof.
  intros Hne. induction 1 as [|a l Ha _ IH]; [reflexivity |].
  cbn [filter]. unfold hasType at 1. rewrite Ha.
  apply String.eqb_neq in Hne. now rewrite Hne.
Qed.

(** Each collector returns records of its own type only. *)
Lemma collector_record_types (c : Client) (username repo : string)
    (startDate endDate : time.Time) (w : World) :
  Forall (fun a => types.Type_ a = "commit")
    (fst (fst (getCommits c username repo startDate endDate w)))
  /\ Forall (fun a => types.Type_ a = "pull_request")
       (fst (fst (getPullRequests c username repo startDate endDate w)))
  /\ Forall (fun a => types.Type_ a = "issue")
       (fst (fst (getIssues c username repo startDate endDate w)))
  /\ Forall (fun a => types.Type_ a = "review")
       (fst (fst (getReviews c username startDate endDate w))).
Proof.
  unfold getCommits, getPullRequests, getIssues, getReviews.
  repeat split;
    match goal with
    | |- Forall _ (fst (fst (searchLoop ?c ?path ?record ?failure 1 [] ?w))) =>
        destruct (searchLoop_records c path record failure w) as [items ->];
        now apply records_typed
    end.
Qed.

(** X7: when [CollectActivity] returns no error, its list is the commits
    (none when their search failed), then the pull requests, the issues
    and the reviews, each group as its collector returned it; the four
    numbers that [countActivities] gives for this list are the sizes of
    the four groups, and they add up to the length of the list. *)
Theorem collected_groups_and_counts (c : Client) (username repo : string)
    (startDate endDate : time.Time) (w : World) :
  let commits := getCommits c username repo startDate endDate w in
  let prs := getPullRequests c username repo startDate endDate (snd commits) in
  let issues := getIssues c username repo startDate endDate (snd prs) in
  let reviews := getReviews c username startDate endDate (snd issues) in
  let kept :=
    match snd (fst commits) with
    | Some _ => []
    | None => fst (fst commits)
    end in
  let run := CollectActivity c username repo startDate endDate w in
  snd (fst run) = None ->
  fst (fst run) = (kept ++ fst (fst prs) ++ fst (fst issues) ++ fst (fst reviews))%list
  /\ main.countActivities (fst (fst run))
     = (Z.of_nat (length kept), Z.of_nat (length (fst (fst prs))),
        Z.of_nat (length (fst (fst issues))), Z.of_nat (length (fst (fst reviews))))
  /\ total (main.countActivities (fst (fst run))) = Z.of_nat (length (fst (fst run))).
Proof.
  cbv zeta. intros Hok.
  pose proof (CollectActivity_cases c username repo startDate endDate w) as Hcases.
  cbv zeta in Hcases.
  destruct Hcases as [(Herr & _) | (_ & Hlist & _)]; [exact (False_ind _ (Herr Hok)) |].
  clear Hok.
  destruct (collector_record_types c username repo startDate endDate w) as (Tc & _).
  set (commits := getCommits c username repo startDate endDate w) in *.
  destruct (collector_record_types c username repo startDate endDate (snd commits))
    as (_ & Tp & _).
  set (prs := getPullRequests c username repo startDate endDate (snd commits)) in *.
  destruct (collector_record_types c username repo startDate endDate (snd prs))
    as (_ & _ & Ti & _).
  set (issues := getIssues c username repo startDate endDate (snd prs)) in *.
  destruct (collector_record_types c username repo startDate endDate (snd issues))
    as (_ & _ & _ & Tr).
  set (reviews := getReviews c username startDate endDate (snd issues)) in *.
  set (kept := match snd (fst commits) with
               | Some _ => []
               | None => fst (fst commits)
               end) in *.
  assert (Tk : Forall (fun a => types.Type_ a = "commit") kept).
  { subst kept. destruct (snd (fst commits)); [constructor | exact Tc]. }
  clearbody kept reviews issues prs commits.
  set (run := CollectActivity c username repo startDate endDate w) in *.
  clearbody run.
  assert (Hcounts : main.countActivities (fst (fst run))
            = (Z.of_nat (length kept), Z.of_nat (length (fst (fst prs))),
               Z.of_nat (length (fst (fst issues))),
               Z.of_nat (length (fst (fst reviews))))).
  { unfold main.countActivities. rewrite count_fold, Hlist, !filter_app.
    rewrite (filter_same_type "commit" kept Tk).
    rewrite (filter_same_type "pull_request" _ Tp).
    rewrite (filter_same_type "issue" _ Ti).
    rewrite (filter_same_type "review" _ Tr).
    rewrite (filter_other_type "commit" "pull_request" kept) by (discriminate || assumption).
    rewrite (filter_other_type "commit" "issue" kept) by (discriminate || assumption).
    rewrite (filter_other_type "commit" "review" kept) by (discriminate || assumption).
    rewrite (filter_other_type "pull_request" "commit" (fst (fst prs)))
      by (discriminate || assumption).
    rewrite (filter_other_type "pull_request" "issue" (fst (fst prs)))
      by (discriminate || assumption).
    rewrite (filter_other_type "pull_request" "review" (fst (fst prs)))
      by (discriminate || assumption).
    rewrite (filter_other_type "issue" "commit" (fst (fst issues)))
      by (discriminate || assumption).
    rewrite (filter_other_type "issue" "pull_request" (fst (fst issues)))
      by (discriminate || assumption).
    rewrite (filter_other_type "issue" "review" (fst (fst issues)))
      by (discriminate || assumption).
    rewrite (filter_other_type "review" "commit" (fst (fst reviews)))
      by (discriminate || assumption).
    rewrite (filter_other_type "review" "pull_request" (fst (fst reviews)))
      by (discriminate || assumption).
    rewrite (filter_other_type "review" "issue" (fst (fst reviews)))
      by (discriminate || assumption).
    cbn [app]. now rewrite !app_nil_r. }
  split; [exact Hlist | split; [exact Hcounts |]].
  rewrite Hcounts, Hlist, !length_app. cbn [total]. lia.
Qed.

(** The witness of [collected_groups_and_counts]: the commit search
    fails after a full page; one pull request, one issue and one review
    are found. *)
Lemma collected_groups_and_counts_witness :
  main.countActivities
    (fst (fst (CollectActivity flakyCommits "alice" "octo/demo" monday tuesday [])))
  = (0, 1, 1, 1)%Z.
Proof.
  assert (Hok : snd (fst (CollectActivity flakyCommits "alice" "octo/demo"
                            monday tuesday [])) = None)
    by (vm_compute; reflexivity).
  destruct (collected_groups_and_counts flakyCommits "alice" "octo/demo" monday tuesday []
              Hok) as (_ & Hcounts & _).
  rewrite Hcounts. vm_compute. reflexivity.
Defined.

End Counts.

(** ** More on the formatted block *)

Section Blocks.

Import llm.

(** X8: the block of a list that is not empty is made of the sections
    COMMITS, PULL REQUESTS, ISSUES and CODE REVIEWS, in this order
    whatever the order of the records in the list.  A section holds the
    records of its type in the order of the list, and is left out when
    there is none; a review is written as its item line alone. *)
Theorem block_sections_in_fixed_order (activities : list types.GitHubActivity) :
  activities <> [] ->
  formatActivitiesForLLM activities
  = sectionText "COMMITS:" (writeCommit "") (filter (hasType "commit") activities)
    ++ sectionText "PULL REQUESTS:" (writeWithBody "")
         (filter (hasType "pull_request") activities)
    ++ sectionText "ISSUES:" (writeWithBody "") (filter (hasType "issue") activities)
    ++ sectionText "CODE REVIEWS:" itemLine (filter (hasType "review") activities).
Proof.
  intros Hne. rewrite (format_sections activities Hne). reflexivity.
Qed.

(** The witness of [block_sections_in_fixed_order]: a review, an issue
    and two commits, given in this order. *)
Lemma block_sections_in_fixed_order_witness :
  formatActivitiesForLLM
    [ activity "review" "octo/demo" "Reviewed PR #9: Add cache" "Reviewed pull request: Add cache";
      activity "commit" "octo/demo" "Fix bug" "Fix bug";
      activity "issue" "octo/site" "Issue #3: Crash" "It crashes.";
      activity "commit" "octo/site" "Add page" "Add page" ]
  = "COMMITS:" ++ nl ++ "- [octo/demo] Fix bug" ++ nl ++ "- [octo/site] Add page" ++ nl ++ nl
    ++ "ISSUES:" ++ nl ++ "- [octo/site] Issue #3: Crash" ++ nl
    ++ "  Description: It crashes." ++ nl ++ nl
    ++ "CODE REVIEWS:" ++ nl ++ "- [octo/demo] Reviewed PR #9: Add cache" ++ nl ++ nl.
Proof.
  rewrite block_sections_in_fixed_order by discriminate. reflexivity.
Defined.

Lemma singleLine_String (ch : ascii) (s : string) :
  Ascii.eqb (ascii_of_nat 10) ch = false -> singleLine s = true ->
  singleLine (String ch s) = true.
Proof.
  unfold singleLine, nl. cbn [Contains HasPrefix]. intros -> H.
  cbn [andb orb]. exact H.
Qed.

(** The first piece of [Split] on line feeds is the text up to the first
    line feed. *)
Lemma splitFrom_first_line (s : string) :
  forall cur : list ascii,
  exists first : string,
    singleLine first = true
    /\ (s = first \/ exists rest, s = first ++ nl ++ rest)
    /\ nth 0 (splitFrom nl 0 cur s) "" = string_of_list_ascii (rev cur) ++ first.
Proof.
  induction s as [|ch s IH]; intros cur.
  - exists "". cbn [splitFrom nth]. rewrite append_nil_r. repeat split. now left.
  - cbn [splitFrom].
    assert (Hprefix : HasPrefix (String ch s) nl = Ascii.eqb (ascii_of_nat 10) ch)
      by (unfold nl; cbn [HasPrefix]; apply andb_true_r).
    rewrite Hprefix.
    destruct (Ascii.eqb (ascii_of_nat 10) ch) eqn:Hch.
    + apply Ascii.eqb_eq in Hch. subst ch.
      exists "". cbn [nth]. rewrite append_nil_r. repeat split.
      right. now exists s.
    + destruct (IH (ch :: cur)) as (first & Hline & Hshape & Hnth).
      exists (String ch first). split; [now apply singleLine_String | split].
      * destruct Hshape as [-> | [rest ->]]; [now left | right; now exists rest].
      * rewrite Hnth. cbn [rev]. rewrite string_of_list_ascii_app.
        now rewrite append_assoc.
Qed.

(** X9: the title of a commit record is the first line of the commit
    message: it holds no line feed, and the description (the whole
    message) is the title alone or the title, a line feed and the rest.
    A message of one line is its own title, and the block of such a
    commit is its item line with no description line. *)
Theorem commit_title_is_first_line (item : github.Item) :
  let a := github.commitRecord item in
  singleLine (types.Title a) = true
  /\ (types.Description a = types.Title a
      \/ exists rest, types.Description a = types.Title a ++ nl ++ rest)
  /\ (singleLine (github.commit_message item) = true ->
      types.Title a = github.commit_message item
      /\ formatActivitiesForLLM [a] = "COMMITS:" ++ nl ++ itemLine a ++ nl).
Proof.
  intros a.
  destruct (splitFrom_first_line (github.commit_message item) [])
    as (first & Hline & Hshape & Hnth).
  cbn [rev string_of_list_ascii append] in Hnth.
  assert (Htitle : types.Title a = first) by exact Hnth.
  change (types.Description a) with (github.commit_message item).
  rewrite Htitle. split; [exact Hline | split; [exact Hshape |]].
  intros Hone.
  assert (Hsame : first = github.commit_message item).
  { rewrite <- Htitle. subst a. unfold github.commitRecord. cbn [types.Title].
    unfold Split. now rewrite (splitFrom_last _ [] Hone). }
  split; [exact Hsame |].
  rewrite format_single_commit by reflexivity.
  unfold commitEntry, writeCommit. cbv zeta.
  change (types.Description a) with (github.commit_message item).
  rewrite Htitle, Hsame, String.eqb_refl. reflexivity.
Qed.

End Blocks.

(** ** More on the request and the report *)

Section Requests.

Import llm.

(** A text in which [old] does not occur is left as it is. *)
Lemma ReplaceAll_absent (s old new : string) :
  Contains s old = false -> ReplaceAll s old new = s.
Proof.
  unfold ReplaceAll. induction s as [|ch s IH]; [reflexivity |].
  cbn [Contains replaceFrom]. intros H.
  apply orb_false_elim in H as [Hhere Hlater].
  now rewrite Hhere, IH.
Qed.

Lemma noBrace_cons (ch : ascii) (s : string) :
  noBrace (String ch s) = true -> Ascii.eqb "{" ch = false /\ noBrace s = true.
Proof.
  unfold noBrace. cbn [Contains HasPrefix]. rewrite andb_true_r.
  destruct (Ascii.eqb "{" ch); cbn [orb negb]; [discriminate | now split].
Qed.

Lemma noBrace_no_placeholder (s : string) :
  noBrace s = true -> Contains s "{{activities}}" = false.
Proof.
  induction s as [|ch s IH]; intros H; [reflexivity |].
  apply noBrace_cons in H as [Hch Hs].
  cbn [Contains HasPrefix]. now rewrite Hch, (IH Hs).
Qed.

(** The text before the first brace is copied. *)
Lemma replaceFrom_before_brace (pre rest new : string) :
  noBrace pre = true ->
  replaceFrom "{{activities}}" new 0 (pre ++ rest)
  = pre ++ replaceFrom "{{activities}}" new 0 rest.
Proof.
  induction pre as [|ch pre IH]; intros H; [reflexivity |].
  apply noBrace_cons in H as [Hch Hpre].
  cbn [append replaceFrom HasPrefix]. now rewrite Hch, (IH Hpre).
Qed.

(** A template with one placeholder and no other brace. *)
Lemma ReplaceAll_one_placeholder (pre post new : string) :
  noBrace pre = true -> noBrace post = true ->
  ReplaceAll (pre ++ "{{activities}}" ++ post) "{{activities}}" new = pre ++ new ++ post.
Proof.
  intros Hpre Hpost. unfold ReplaceAll.
  rewrite (replaceFrom_before_brace pre _ new Hpre). f_equal.
  cbn [append replaceFrom HasPrefix Ascii.eqb Bool.eqb andb String.length Nat.sub].
  f_equal. apply (ReplaceAll_absent post "{{activities}}" new).
  now apply noBrace_no_placeholder.
Qed.

(** X10: the request holds one message for each message of the source
    (the messages given by the caller, which replace the configured ones
    altogether, or the configured ones when none is given), with the
    same role and in the same order.  The content of a message without
    the placeholder is sent as it is; a content with one placeholder and
    no other brace is sent with the activity block in the place of the
    placeholder. *)
Theorem messages_rendered (rt : Runtime) (activitySummary model : string)
    (promptMessages : option (list PromptMessage)) (promptConfig : PromptConfig) :
  let source := promptSource promptMessages promptConfig in
  let request := assembleRequest rt activitySummary model promptMessages promptConfig in
  map msg_Role (req_Messages request) = map Role source
  /\ Forall2
       (fun msg sent =>
          (Contains (Content msg) "{{activities}}" = false ->
           msg_Content sent = Content msg)
          /\ (forall pre post,
                noBrace pre = true -> noBrace post = true ->
                Content msg = pre ++ "{{activities}}" ++ post ->
                msg_Content sent = pre ++ activitySummary ++ post))
       source (req_Messages request)
  /\ req_Stream request = false.
Proof.
  intros source request. subst request. unfold assembleRequest. cbv zeta.
  cbn [req_Messages req_Stream].
  fold (promptSource promptMessages promptConfig). fold source.
  split; [| split; [| reflexivity]].
  - rewrite map_map. reflexivity.
  - induction source as [|msg rest IH]; cbn [map]; constructor; [| exact IH].
    cbn [msg_Content]. split.
    + intros Habsent. now apply ReplaceAll_absent.
    + intros pre post Hpre Hpost ->. now apply ReplaceAll_one_placeholder.
Qed.

(** The witness of [messages_rendered]: the two configured messages, the
    second one with the placeholder. *)
Lemma messages_rendered_witness :
  map msg_Content
      (req_Messages (assembleRequest (exampleRuntime "") "COMMITS: none" "" None
                       examplePrompt))
  = ["You write standup reports."; "Activity: COMMITS: none"]
  /\ map msg_Role
       (req_Messages (assembleRequest (exampleRuntime "") "COMMITS: none" "" None
                        examplePrompt))
     = ["system"; "user"].
Proof.
  destruct (messages_rendered (exampleRuntime "") "COMMITS: none" "" None examplePrompt)
    as (Hroles & _).
  split; [reflexivity | exact Hroles].
Defined.

(** X11: [GenerateStandupReport] never returns a report together with an
    error.  It returns either an error and the empty report, or no error
    and a report; the second happens only when the configuration was
    loaded, the request that was assembled for the activities was
    encoded, the endpoint answered its body with the status 200, and the
    answer decoded to at least one choice: the report is then the
    trimmed content of the first of the choices. *)
Theorem report_or_error (rt : Runtime) (c : Client)
    (activities : list types.GitHubActivity) (model : string)
    (promptMessages : option (list PromptMessage)) :
  let result := GenerateStandupReport rt c activities model promptMessages in
  (snd result <> None /\ fst result = "")
  \/ (snd result = None
      /\ exists promptConfig jsonData body response first rest,
          yaml_Unmarshal rt = inr promptConfig
          /\ json_Marshal rt
               (assembleRequest rt (formatActivitiesForLLM activities) model
                  promptMessages promptConfig) = inr jsonData
          /\ http_Do rt ("Bearer " ++ token c) jsonData = Received 200 body
          /\ json_Unmarshal rt body = inr response
          /\ Choices response = first :: rest
          /\ fst result = TrimSpace (Message_Content first)).
Proof.
  intros result; subst result.
  unfold GenerateStandupReport, loadPromptConfig, callGitHubModels. cbv zeta.
  destruct (yaml_Unmarshal rt) as [e | promptConfig];
    [left; split; [discriminate | reflexivity] |].
  destruct (json_Marshal rt _) as [e | jsonData] eqn:Hmarshal;
    [left; split; [discriminate | reflexivity] |].
  destruct (http_Do rt ("Bearer " ++ token c) jsonData)
    as [e | e | StatusCode body] eqn:Hdo;
    try (left; split; [discriminate | reflexivity]).
  destruct (Z.eqb_spec StatusCode 200) as [-> | _]; cbn [negb];
    [| left; split; [discriminate | reflexivity]].
  destruct (json_Unmarshal rt body) as [e | response] eqn:Hdecode;
    [left; split; [discriminate | reflexivity] |].
  destruct (Choices response) as [|first rest] eqn:Hchoices;
    [left; split; [discriminate | reflexivity] |].
  right. split; [reflexivity |].
  exists promptConfig, jsonData, body, response, first, rest.
  repeat split; assumption.
Qed.

(** X12: how the steps before the report fail.  A configuration that
    does not load ends the call at once; with the configuration loaded
    and the request encoded, a failed exchange, a failed read, a status
    other than 200 (whatever the body holds) and a body that does not
    decode each give the empty report and the error of that step, the
    status error with the code and the body in its message. *)
Theorem report_failures (rt : Runtime) (c : Client)
    (activities : list types.GitHubActivity) (model : string)
    (promptMessages : option (list PromptMessage)) :
  let report := GenerateStandupReport rt c activities model promptMessages in
  (forall e, yaml_Unmarshal rt = inl e ->
     report = ("", Some (Errorf_w "failed to parse prompt configuration: " e)))
  /\ (forall promptConfig jsonData,
        yaml_Unmarshal rt = inr promptConfig ->
        json_Marshal rt (assembleRequest rt (formatActivitiesForLLM activities) model
                           promptMessages promptConfig) = inr jsonData ->
        (forall e, http_Do rt ("Bearer " ++ token c) jsonData = DoFailed e ->
           report = ("", Some (Errorf_w "failed to make request: " e)))
        /\ (forall e, http_Do rt ("Bearer " ++ token c) jsonData = ReadFailed e ->
              report = ("", Some (Errorf_w "failed to read response: " e)))
        /\ (forall StatusCode body,
              http_Do rt ("Bearer " ++ token c) jsonData = Received StatusCode body ->
              StatusCode <> 200%Z ->
              report = ("", Some (errorString
                                    ("API request failed with status "
                                       ++ itoa StatusCode ++ ": " ++ body))))
        /\ (forall body e,
              http_Do rt ("Bearer " ++ token c) jsonData = Received 200 body ->
              json_Unmarshal rt body = inl e ->
              report = ("", Some (Errorf_w "failed to unmarshal response: " e)))).
Proof.
  intros report; subst report.
  unfold GenerateStandupReport, loadPromptConfig, callGitHubModels. cbv zeta.
  split.
  - intros e ->. reflexivity.
  - intros promptConfig jsonData -> ->. split; [| split; [| split]].
    + intros e ->. reflexivity.
    + intros e ->. reflexivity.
    + intros StatusCode body -> Hstatus.
      apply Z.eqb_neq in Hstatus. now rewrite Hstatus.
    + intros body e -> ->. reflexivity.
Qed.

(** The witness of [report_failures]: the endpoint answers 429. *)
Lemma report_failures_witness :
  GenerateStandupReport (statusRuntime 429 "rate limit exceeded") {| token := "ghp_token" |}
    [activity "commit" "octo/demo" "Fix bug" "Fix bug"] "" None
  = ("", Some (errorString "API request failed with status 429: rate limit exceeded")).
Proof.
  destruct (report_failures (statusRuntime 429 "rate limit exceeded")
              {| token := "ghp_token" |}
              [activity "commit" "octo/demo" "Fix bug" "Fix bug"] "" None)
    as (_ & Hsteps).
  destruct (Hsteps examplePrompt "{model: openai/gpt-4o}" eq_refl eq_refl)
    as (_ & _ & Hstatus & _).
  rewrite (Hstatus 429%Z "rate limit exceeded" eq_refl); [reflexivity | discriminate].
Defined.

Lemma escape_spaces (baseQuery : string) :
  github.escape baseQuery = spacesAsPercent20 baseQuery.
Proof.
  unfold github.escape, ReplaceAll.
  induction baseQuery as [|ch s IH]; [reflexivity |].
  cbn [replaceFrom spacesAsPercent20 HasPrefix String.length Nat.sub].
  rewrite andb_true_r, (Ascii.eqb_sym ch " "), IH. reflexivity.
Qed.

Lemma spacesAsPercent20_no_space (s : string) :
  Contains (spacesAsPercent20 s) " " = false.
Proof.
  induction s as [|ch s IH]; [reflexivity |].
  cbn [spacesAsPercent20].
  destruct (Ascii.eqb ch " ") eqn:Hch.
  - cbn [append Contains HasPrefix Ascii.eqb Bool.eqb andb orb]. exact IH.
  - cbn [Contains HasPrefix]. rewrite (Ascii.eqb_sym " " ch), Hch. exact IH.
Qed.

(** X13: the escaped query of a collector is its query with every
    space written as "%20" and every other byte as it is, in the same
    order; so it holds no space, and a query without a space is sent as
    it is. *)
Theorem escaped_query_has_no_space (baseQuery : string) :
  github.escape baseQuery = spacesAsPercent20 baseQuery
  /\ Contains (github.escape baseQuery) " " = false
  /\ (Contains baseQuery " " = false -> github.escape baseQuery = baseQuery).
Proof.
  split; [apply escape_spaces | split; [| apply ReplaceAll_absent]].
  rewrite escape_spaces. apply spacesAsPercent20_no_space.
Qed.

End Requests.

(** ** The command *)

Section Command.

Import main.

Lemma cutFrom_colon (role content : string) :
  forall cur : list ascii,
    Contains role ":" = false ->
    cutFrom ":" cur (role ++ ":" ++ content)
    = [string_of_list_ascii (rev cur) ++ role; content].
Proof.
  induction role as [|ch role IH]; intros cur Hrole.
  - cbn. now rewrite append_nil_r.
  - cbn [Contains HasPrefix] in Hrole. rewrite andb_true_r in Hrole.
    apply orb_false_elim in Hrole as [Hch Hrole].
    change (String ch role ++ ":" ++ content) with (String ch (role ++ ":" ++ content)).
    cbn [cutFrom HasPrefix]. rewrite andb_true_r, Hch.
    rewrite (IH (ch :: cur) Hrole). cbn [rev].
    now rewrite string_of_list_ascii_app, append_assoc.
Qed.

Lemma cutFrom_no_colon (s : string) :
  forall cur : list ascii,
    Contains s ":" = false -> cutFrom ":" cur s = [string_of_list_ascii (rev cur) ++ s].
Proof.
  induction s as [|ch s IH]; intros cur Hs.
  - cbn. now rewrite append_nil_r.
  - cbn [Contains HasPrefix] in Hs. rewrite andb_true_r in Hs.
    apply orb_false_elim in Hs as [Hch Hs].
    cbn [cutFrom HasPrefix]. rewrite andb_true_r, Hch.
    rewrite (IH (ch :: cur) Hs). cbn [rev].
    now rewrite string_of_list_ascii_app, append_assoc.
Qed.

Lemma cutFrom_with_colon (s : string) :
  forall cur : list ascii,
    Contains s ":" = true -> length (cutFrom ":" cur s) = 2%nat.
Proof.
  induction s as [|ch s IH]; intros cur Hs; [discriminate Hs |].
  cbn [Contains HasPrefix] in Hs. rewrite andb_true_r in Hs.
  cbn [cutFrom HasPrefix]. rewrite andb_true_r.
  destruct (Ascii.eqb ":" ch); [reflexivity |].
  cbn [orb] in Hs. now apply IH.
Qed.

(** X14: a prompt flag "role:content" whose role holds no colon is read
    back as the message with that role and that content, further colons
    of the content included; a list of such flags gives the list of
    their messages, in the order of the flags. *)
Theorem prompts_round_trip (messages : list (string * string)) :
  Forall (fun message => Contains (fst message) ":" = false) messages ->
  parsePrompts (map promptFlag messages) [] = inr (map promptOf messages).
Proof.
  intros Hroles.
  enough (Hgen : forall parsed,
             parsePrompts (map promptFlag messages) parsed
             = inr (parsed ++ map promptOf messages)%list) by apply Hgen.
  induction Hroles as [|[role content] rest Hrole _ IH]; intros parsed.
  - cbn. now rewrite app_nil_r.
  - cbn [map parsePrompts]. cbn [fst] in Hrole.
    change (promptFlag (role, content)) with (role ++ ":" ++ content).
    unfold SplitN2. cbv zeta. rewrite (cutFrom_colon role content [] Hrole).
    cbn [length Nat.eqb negb nth rev string_of_list_ascii append].
    rewrite IH, <- app_assoc. reflexivity.
Qed.

(** The witness of [prompts_round_trip]: two flags, the first with a
    colon in its content. *)
Lemma prompts_round_trip_witness :
  parsePrompts ["system:Be brief: three lines at most"; "user:{{activities}}"] []
  = inr [ {| llm.Role := "system"; llm.Content := "Be brief: three lines at most" |};
          {| llm.Role := "user"; llm.Content := "{{activities}}" |} ].
Proof.
  apply (prompts_round_trip
           [("system", "Be brief: three lines at most"); ("user", "{{activities}}")]).
  repeat constructor.
Defined.

(** X15: the first prompt flag without a colon ends the parsing with the
    error "invalid prompt format (expected 'rule:message'): " followed by
    that flag; the flags after it are not read. *)
Theorem prompt_without_colon_rejected (good rest : list string) (bad : string)
    (parsed : list llm.PromptMessage) :
  Forall (fun flag => Contains flag ":" = true) good ->
  Contains bad ":" = false ->
  parsePrompts (good ++ bad :: rest) parsed
  = inl (errorString ("invalid prompt format (expected 'rule:message'): " ++ bad)).
Proof.
  intros Hgood Hbad. revert parsed.
  induction Hgood as [|flag good Hflag _ IH]; intros parsed.
  - cbn [app parsePrompts]. unfold SplitN2.
    now rewrite (cutFrom_no_colon bad [] Hbad).
  - cbn [app parsePrompts]. unfold SplitN2.
    rewrite (cutFrom_with_colon flag [] Hflag). cbn [Nat.eqb negb]. apply IH.
Qed.

(** The witness of [prompt_without_colon_rejected]. *)
Lemma prompt_without_colon_rejected_witness :
  parsePrompts ["system:Be brief"; "Summarise my day"; "user:{{activities}}"] []
  = inl (errorString "invalid prompt format (expected 'rule:message'): Summarise my day").
Proof.
  apply (prompt_without_colon_rejected ["system:Be brief"] ["user:{{activities}}"]
           "Summarise my day" []).
  - repeat constructor.
  - reflexivity.
Defined.

(** X16: when the collection returns no record and no error, the command
    prints nothing and returns no error.  It stops before the token is
    looked up, the prompt flags are parsed and the endpoint is called, so
    a missing token or a malformed prompt flag is no error then. *)
Theorem runStandup_no_activity (host : Host) (flags : Flags)
    (rest : github.RESTClient) (login : string) (w0 w : github.World) :
  DefaultRESTClient host = inr rest ->
  signedIn host flags login w0 ->
  github.CollectActivity {| github.client := rest |} login (flagRepo flags)
    (AddDate host (Now host) 0 0 (- flagDays flags)) (Now host) w0
  = (([], None), w) ->
  runStandup host flags = {| stdout := ""; err := None; requests := w |}.
Proof.
  intros Hrest Hsigned Hcollect. unfold runStandup, github.NewClient.
  rewrite Hrest.
  destruct Hsigned as [(Hflag & -> & ->) | (Hflag & Huser & ->)].
  - apply String.eqb_neq in Hflag. rewrite Hflag. cbv zeta. now rewrite Hcollect.
  - rewrite Hflag. cbn [String.eqb]. unfold github.GetCurrentUser.
    rewrite Huser. cbn [app]. cbv zeta. now rewrite Hcollect.
Qed.

(** The witness of [runStandup_no_activity]: nothing is found, no token
    is set and the prompt flag has no colon. *)
Lemma runStandup_no_activity_witness :
  runStandup (exampleHost quietServer "")
    {| flagDays := 1; flagModel := "openai/gpt-4o"; flagPrompts := ["Summarise my day"];
       flagRepo := ""; flagUser := "" |}
  = {| stdout := ""; err := None;
       requests := snd (github.CollectActivity quietServer "alice" "" monday tuesday
                          ["user"]) |}.
Proof.
  apply (runStandup_no_activity (exampleHost quietServer "") _
           (github.client quietServer) "alice" ["user"]).
  - reflexivity.
  - right. repeat split.
  - vm_compute. reflexivity.
Defined.

(** X17: the command never prints a report together with an error.  It
    returns an error and prints nothing; or it returns no error, and then
    the REST client was made, the user is the one of the flag or the one
    looked up, and the collection for that user, the repository of the
    flag and the days from [AddDate(0, 0, -days)] to now returned the
    activities without an error after the requests of the outcome.  With
    no activity nothing is printed; else the token was found, and what is
    printed is the report that [GenerateStandupReport] returned without
    an error for these activities, the model of the flag and the messages
    of the prompt flags, once, followed by a line feed. *)
Theorem runStandup_prints_or_fails (host : Host) (flags : Flags) :
  let out := runStandup host flags in
  (err out <> None /\ stdout out = "")
  \/ (err out = None
      /\ exists rest login w0 activities,
          DefaultRESTClient host = inr rest
          /\ signedIn host flags login w0
          /\ github.CollectActivity {| github.client := rest |} login (flagRepo flags)
               (AddDate host (Now host) 0 0 (- flagDays flags)) (Now host) w0
             = ((activities, None), requests out)
          /\ ((activities = [] /\ stdout out = "")
              \/ (activities <> []
                  /\ TokenForHost host <> ""
                  /\ exists promptMessages report,
                      promptsOfFlags flags promptMessages
                      /\ llm.GenerateStandupReport (models host)
                           {| llm.token := TokenForHost host |} activities
                           (flagModel flags) promptMessages
                         = (report, None)
                      /\ stdout out = report ++ nl))).
Proof.
  intros out; subst out. unfold runStandup, github.NewClient.
  destruct (DefaultRESTClient host) as [e | rest] eqn:Hrest;
    [left; split; [discriminate | reflexivity] |].
  assert (Hsigned : exists login e w0,
             (if String.eqb (flagUser flags) ""
              then github.GetCurrentUser (user host) []
              else ((flagUser flags, None), [])) = ((login, e), w0)
             /\ (e = None -> signedIn host flags login w0)).
  { destruct (String.eqb_spec (flagUser flags) "") as [Hflag | Hflag].
    - unfold github.GetCurrentUser.
      destruct (user host []) as [e | login] eqn:Huser.
      + exists "", (Some e), ["user"]. split; [reflexivity | discriminate].
      + exists login, None, ["user"]. split; [reflexivity |].
        intros _. right. repeat split; assumption.
    - exists (flagUser flags), None, []. split; [reflexivity |].
      intros _. left. repeat split. exact Hflag. }
  destruct Hsigned as (login & e & w0 & -> & Hsigned).
  destruct e as [e|]; [left; split; [discriminate | reflexivity] |].
  specialize (Hsigned eq_refl). cbv zeta.
  destruct (github.CollectActivity {| github.client := rest |} login (flagRepo flags)
              (AddDate host (Now host) 0 0 (- flagDays flags)) (Now host) w0)
    as [[activities [e|]] w] eqn:Hcollect;
    [left; split; [discriminate | reflexivity] |].
  destruct activities as [|a activities].
  { right. split; [reflexivity |].
    exists rest, login, w0, []. repeat split; try assumption. now left. }
  cbn [length Nat.eqb]. unfold llm.NewClient.
  destruct (String.eqb_spec (TokenForHost host) "") as [Htoken | Htoken];
    [left; split; [discriminate | reflexivity] |].
  assert (Hprompts : forall promptMessages,
             (if (0 <? length (flagPrompts flags))%nat
              then match parsePrompts (flagPrompts flags) [] with
                   | inl e => inl e
                   | inr parsed => inr (Some parsed)
                   end
              else inr None) = inr promptMessages ->
             promptsOfFlags flags promptMessages).
  { intros promptMessages. unfold promptsOfFlags.
    destruct (flagPrompts flags) as [|flag more].
    - cbn. intros H. injection H as <-. now left.
    - cbn [length Nat.ltb Nat.leb].
      destruct (parsePrompts (flag :: more) []) as [e | parsed];
        intros H; [discriminate H |].
      injection H as <-. right. split; [discriminate |]. now exists parsed. }
  destruct (if (0 <? length (flagPrompts flags))%nat
            then match parsePrompts (flagPrompts flags) [] with
                 | inl e => inl e
                 | inr parsed => inr (Some parsed)
                 end
            else inr None) as [e | promptMessages];
    [left; split; [discriminate | reflexivity] |].
  specialize (Hprompts promptMessages eq_refl).
  destruct (llm.GenerateStandupReport (models host) {| llm.token := TokenForHost host |}
              (a :: activities) (flagModel flags) promptMessages)
    as [report [e|]] eqn:Hreport;
    [left; split; [discriminate | reflexivity] |].
  right. split; [reflexivity |].
  exists rest, login, w0, (a :: activities). cbn [requests stdout].
  split; [reflexivity | split; [exact Hsigned | split; [exact Hcollect |]]].
  right. split; [discriminate | split; [exact Htoken |]].
  exists promptMessages, report. repeat split; assumption.
Qed.

(** X18: the authenticated user is looked up only when no user is given.
    With the flag set, the outcome does not depend on what the server
    would answer to GET user; without it, a failed lookup ends the
    command with the error "failed to get current user: ..." after that
    one request, before any search. *)
Theorem user_lookup_only_without_flag (host : Host) (flags : Flags) :
  (flagUser flags <> "" ->
   forall other, runStandup (withUser host other) flags = runStandup host flags)
  /\ (flagUser flags = "" ->
      forall rest e,
        DefaultRESTClient host = inr rest ->
        user host [] = inl e ->
        runStandup host flags
        = {| stdout := ""; requests := ["user"];
             err := Some (Errorf_w "failed to get current user: " e) |}).
Proof.
  split.
  - intros Hflag other. apply String.eqb_neq in Hflag.
    unfold runStandup, withUser.
    cbn [DefaultRESTClient user Now AddDate TokenForHost models].
    now rewrite Hflag.
  - intros Hflag rest e Hrest Huser. unfold runStandup, github.NewClient.
    rewrite Hrest, Hflag. cbn [String.eqb]. unfold github.GetCurrentUser.
    now rewrite Huser.
Qed.

(** The witness of [user_lookup_only_without_flag]: with the user
    "bob" given, a server that refuses GET user changes nothing. *)
Lemma user_lookup_only_without_flag_witness :
  runStandup (withUser (exampleHost quietServer "ghp_token")
                (fun _ => inl (errorString "HTTP 401: Unauthorized")))
    {| flagDays := 1; flagModel := "openai/gpt-4o"; flagPrompts := [];
       flagRepo := ""; flagUser := "bob" |}
  = runStandup (exampleHost quietServer "ghp_token")
      {| flagDays := 1; flagModel := "openai/gpt-4o"; flagPrompts := [];
         flagRepo := ""; flagUser := "bob" |}.
Proof.
  apply (user_lookup_only_without_flag (exampleHost quietServer "ghp_token")
           {| flagDays := 1; flagModel := "openai/gpt-4o"; flagPrompts := [];
              flagRepo := ""; flagUser := "bob" |}).
  discriminate.
Defined.

(** The whole command on an example: one commit is found for "alice",
    and the answer of the endpoint is printed, trimmed. *)
Example runStandup_prints_report :
  let out := runStandup (exampleHost oneCommitServer "ghp_token") defaultFlags in
  (stdout out, err out, length (requests out))
  = ("Yesterday I fixed a bug." ++ nl, None, 5%nat).
Proof. vm_compute. reflexivity. Qed.

End Command.
